(** * DaytonaComputer: the Daytona sandbox adapter of computers/daytona/daytona.py

    A shallow embedding of the adapter class.  The adapter object is a record
    of its private fields; every method is a computation in a small
    state-and-exception monad that also records, in order, the calls made to
    the Daytona SDK, the [time.sleep] delays and the [termcolor.cprint] lines.
    The SDK itself is external: it is a parameter [provider] that answers each
    call, given the history so far, with a value or with a raised exception. *)

From Stdlib Require Import ZArith QArith_base String Ascii List Bool Lia.
From stdpp Require Import base option gmap strings pretty.
Import ListNotations.

Local Open Scope string_scope.
Local Open Scope list_scope.
Local Open Scope Z_scope.

(** ** Python values used by the adapter *)

(** Exception classes that occur in the module.  [DaytonaError] stands for the
    SDK's error class and its subclasses, [OtherException] for any other
    class derived from Python's [Exception].  The last three derive from
    [BaseException] only: an [except Exception] clause does not catch them. *)
Inductive exn_class : Type :=
  | DaytonaError
  | ValueError
  | AttributeError
  | IndexError
  | BinasciiError
  | OtherException (name : string)
  | KeyboardInterrupt
  | SystemExit
  | GeneratorExit.

(** An exception instance; [exn_str] is what [str(e)] and an f-string show. *)
Record exn : Type := Exn { exn_cls : exn_class; exn_str : string }.

Definition is_DaytonaError (e : exn) : bool :=
  match exn_cls e with DaytonaError => true | _ => false end.

(** [Daytona(DaytonaConfig(api_key=...))]: the SDK client. *)
Record Daytona : Type := { api_key : string }.

(** A sandbox handle as returned by [Daytona.create]. *)
Record Sandbox : Type := { id : string }.

Record CreateSandboxFromSnapshotParams : Type := {
  network_block_all : bool;
  network_allow_list : option string;
  auto_stop_interval : Z }.

(** [EnvState(screenshot=..., url=...)] of the surrounding framework. *)
Record EnvState : Type := { screenshot : list Byte.byte; url : string }.

(** The instance attributes assigned in [__init__]. *)
Record DaytonaComputer : Type := {
  _screen_size : Z * Z;
  _initial_url : string;
  _search_engine_url : string;
  _network_block_all : bool;
  _network_allow_list : option string;
  _auto_stop_interval : Z;
  _daytona : option Daytona;
  _sandbox : option Sandbox;
  _current_url : string }.

(** ** Module constants *)

Definition DAYTONA_KEY_MAP : gmap string string :=
  <["control" := "ctrl"]> (<["command" := "cmd"]> (<["meta" := "cmd"]> ∅)).

Definition SLEEP_ACTION : Q := Qmake 1 10.
Definition SLEEP_SCREENSHOT : Q := Qmake 5 10.
Definition SLEEP_NAVIGATION : Q := Qmake 1 1.

(** ** Calls to the SDK and observable events *)

Inductive call : Type :=
  | Daytona_new (key : string)
  | Daytona_create (d : Daytona) (params : CreateSandboxFromSnapshotParams)
  | computer_use_start (sb : Sandbox)
  | sandbox_delete (sb : Sandbox)
  | process_exec (sb : Sandbox) (cmd : string) (timeout : Z)
  | mouse_click (sb : Sandbox) (x y : Z) (button : option string)
  | mouse_move (sb : Sandbox) (x y : Z)
  | mouse_drag (sb : Sandbox) (x y destination_x destination_y : Z)
  | keyboard_press (sb : Sandbox) (key : string)
  | keyboard_hotkey (sb : Sandbox) (keys : string)
  | keyboard_type (sb : Sandbox) (text : string) (delay : option Z)
  | screenshot_take_compressed (sb : Sandbox) (fmt : string) (show_cursor : bool).

(** What a call returns when it does not raise; for the screenshot call this
    is the [.screenshot] attribute of the response, a base64 text. *)
Definition ret_type (c : call) : Type :=
  match c with
  | Daytona_new _ => Daytona
  | Daytona_create _ _ => Sandbox
  | screenshot_take_compressed _ _ _ => string
  | _ => unit
  end.

Inductive event : Type :=
  | Call (c : call)
  | Sleep (seconds : Q)
  | Cprint (text : string) (color : string) (bold : bool).

(** The SDK and the service behind it: history so far, call, answer. *)
Definition provider_t : Type := list event -> forall c : call, exn + ret_type c.

Definition is_call (ev : event) : bool :=
  match ev with Call _ => true | _ => false end.

Definition is_key_event (ev : event) : bool :=
  match ev with
  | Call (keyboard_press _ _) | Call (keyboard_hotkey _ _) | Call (keyboard_type _ _ _) => true
  | _ => false
  end.

Definition is_mouse_click (ev : event) : bool :=
  match ev with Call (mouse_click _ _ _ _) => true | _ => false end.

Definition is_delete (ev : event) : bool :=
  match ev with Call (sandbox_delete _) => true | _ => false end.

(** ** The monad of method bodies *)

Inductive result (A : Type) : Type :=
  | Ok (a : A)
  | Raise (e : exn).
Arguments Ok {A} a.
Arguments Raise {A} e.

(** A method body runs on the object [self] after the history [h]; it yields
    a value or an exception, the object as it is then, and the events it
    produced itself, oldest first. *)
Definition M (A : Type) : Type :=
  DaytonaComputer -> list event -> result A * DaytonaComputer * list event.

Definition outcome_of {A} (o : result A * DaytonaComputer * list event) : result A :=
  fst (fst o).
Definition self_of {A} (o : result A * DaytonaComputer * list event) : DaytonaComputer :=
  snd (fst o).
Definition events_of {A} (o : result A * DaytonaComputer * list event) : list event :=
  snd o.

Definition ret {A} (a : A) : M A := fun self _ => (Ok a, self, []).

Definition raise {A} (e : exn) : M A := fun self _ => (Raise e, self, []).

Definition bind {A B} (m : M A) (k : A -> M B) : M B :=
  fun self h =>
    match m self h with
    | (Ok a, self1, ev1) =>
        match k a self1 (h ++ ev1) with
        | (r, self2, ev2) => (r, self2, ev1 ++ ev2)
        end
    | (Raise e, self1, ev1) => (Raise e, self1, ev1)
    end.

Declare Scope py_scope.
Delimit Scope py_scope with py.
Notation "x <- m ;; k" := (bind m (fun x => k))
  (at level 100, m at next level, right associativity) : py_scope.
Notation "m ;; k" := (bind m (fun _ => k))
  (at level 100, right associativity) : py_scope.
Local Open Scope py_scope.

(** [try: body / except <classes> as e: handler e]. *)
Definition try_except {A} (body : M A) (catches : exn -> bool) (handler : exn -> M A) : M A :=
  fun self h =>
    match body self h with
    | (Ok a, self1, ev1) => (Ok a, self1, ev1)
    | (Raise e, self1, ev1) =>
        if catches e then
          match handler e self1 (h ++ ev1) with
          | (r, self2, ev2) => (r, self2, ev1 ++ ev2)
          end
        else (Raise e, self1, ev1)
    end.

(** [except Exception]: catches the instances of [Exception] and of its
    subclasses, and lets KeyboardInterrupt, SystemExit and GeneratorExit
    pass. *)
Definition Exception (e : exn) : bool :=
  match exn_cls e with
  | KeyboardInterrupt | SystemExit | GeneratorExit => false
  | _ => true
  end.

Definition get_self : M DaytonaComputer := fun self _ => (Ok self, self, []).

Definition emit (ev : event) : M unit := fun self _ => (Ok tt, self, [ev]).

Definition sleep (seconds : Q) : M unit := emit (Sleep seconds).

Definition cprint (text color : string) (bold : bool) : M unit :=
  emit (Cprint text color bold).

(** Attribute assignment, [self.<field> = value]. *)
Definition assign_daytona (self : DaytonaComputer) (d : option Daytona) : DaytonaComputer :=
  {| _screen_size := _screen_size self; _initial_url := _initial_url self;
     _search_engine_url := _search_engine_url self;
     _network_block_all := _network_block_all self;
     _network_allow_list := _network_allow_list self;
     _auto_stop_interval := _auto_stop_interval self;
     _daytona := d; _sandbox := _sandbox self;
     _current_url := _current_url self |}.

Definition assign_sandbox (self : DaytonaComputer) (sb : option Sandbox) : DaytonaComputer :=
  {| _screen_size := _screen_size self; _initial_url := _initial_url self;
     _search_engine_url := _search_engine_url self;
     _network_block_all := _network_block_all self;
     _network_allow_list := _network_allow_list self;
     _auto_stop_interval := _auto_stop_interval self;
     _daytona := _daytona self; _sandbox := sb;
     _current_url := _current_url self |}.

Definition assign_current_url (self : DaytonaComputer) (u : string) : DaytonaComputer :=
  {| _screen_size := _screen_size self; _initial_url := _initial_url self;
     _search_engine_url := _search_engine_url self;
     _network_block_all := _network_block_all self;
     _network_allow_list := _network_allow_list self;
     _auto_stop_interval := _auto_stop_interval self;
     _daytona := _daytona self; _sandbox := _sandbox self;
     _current_url := u |}.

Definition set_daytona (d : option Daytona) : M unit :=
  fun self _ => (Ok tt, assign_daytona self d, []).

Definition set_sandbox (sb : option Sandbox) : M unit :=
  fun self _ => (Ok tt, assign_sandbox self sb, []).

Definition set_current_url (u : string) : M unit :=
  fun self _ => (Ok tt, assign_current_url self u, []).

Definition squote : string := String (ascii_of_nat 39) EmptyString.
Definition dquote : string := String (ascii_of_nat 34) EmptyString.

(** Attribute access on [None]. *)
Definition NoneType_has_no_attribute (attr : string) : exn :=
  Exn AttributeError
      (squote +:+ "NoneType" +:+ squote +:+ " object has no attribute "
              +:+ squote +:+ attr +:+ squote).

(** [self._sandbox.<attr>]: the handle, or AttributeError when it is None. *)
Definition self_sandbox (attr : string) : M Sandbox :=
  self <- get_self ;;
  match _sandbox self with
  | Some sb => ret sb
  | None => raise (NoneType_has_no_attribute attr)
  end.

(** [self._daytona.<attr>]. *)
Definition self_daytona (attr : string) : M Daytona :=
  self <- get_self ;;
  match _daytona self with
  | Some d => ret d
  | None => raise (NoneType_has_no_attribute attr)
  end.

(** ** Library functions: str.lower, str.startswith, base64.b64decode *)

(** [str.lower] on the ASCII letters.  The keys of [DAYTONA_KEY_MAP] are
    ASCII and no other character lowercases to one of their letters, so for
    the lookup this agrees with Python on UTF-8 text. *)
Definition lower_ascii (c : ascii) : ascii :=
  let n := nat_of_ascii c in
  if ((65 <=? n) && (n <=? 90))%nat then ascii_of_nat (n + 32) else c.

Fixpoint lower (s : string) : string :=
  match s with
  | EmptyString => EmptyString
  | String c rest => String (lower_ascii c) (lower rest)
  end.

(** [s.startswith((p1, p2, ...))]. *)
Definition startswith (s : string) (prefixes : list string) : bool :=
  existsb (fun p => String.prefix p s) prefixes.

(** [sep.join(items)]. *)
Definition join (sep : string) (items : list string) : string :=
  String.concat sep items.

Definition table_a2b_base64 (c : ascii) : option Z :=
  let n := Z.of_nat (nat_of_ascii c) in
  if (65 <=? n) && (n <=? 90) then Some (n - 65)
  else if (97 <=? n) && (n <=? 122) then Some (n - 71)
  else if (48 <=? n) && (n <=? 57) then Some (n + 4)
  else if n =? 43 then Some 62
  else if n =? 47 then Some 63
  else None.

Definition byte_of_Z (z : Z) : Byte.byte :=
  match Byte.of_N (Z.to_N (z mod 256)) with
  | Some b => b
  | None => Byte.x00
  end.

(** [binascii.a2b_base64] in its lenient mode: characters outside the
    alphabet are skipped, a completed pad sequence ends the input, and input
    that ends inside a quad is an error. *)
Fixpoint a2b_base64_from (data : string) (quad_pos leftchar pads : Z)
    (bin_data : list Z) : exn + list Z :=
  match data with
  | EmptyString =>
      if quad_pos =? 0 then inr bin_data
      else if quad_pos =? 1 then
        inl (Exn BinasciiError
               ("Invalid base64-encoded string: number of data characters ("
                  +:+ pretty (Z.of_nat (length bin_data) / 3 * 4 + 1)
                  +:+ ") cannot be 1 more than a multiple of 4"))
      else inl (Exn BinasciiError "Incorrect padding")
  | String this_ch rest =>
      if Ascii.eqb this_ch "="%char then
        if 2 <=? quad_pos then
          if 4 <=? quad_pos + (pads + 1) then inr bin_data
          else a2b_base64_from rest quad_pos leftchar (pads + 1) bin_data
        else a2b_base64_from rest quad_pos leftchar pads bin_data
      else
        match table_a2b_base64 this_ch with
        | None => a2b_base64_from rest quad_pos leftchar pads bin_data
        | Some v =>
            if quad_pos =? 0 then a2b_base64_from rest 1 v 0 bin_data
            else if quad_pos =? 1 then
              a2b_base64_from rest 2 (Z.land v 15) 0
                (bin_data ++ [Z.lor (Z.shiftl leftchar 2) (Z.shiftr v 4)])
            else if quad_pos =? 2 then
              a2b_base64_from rest 3 (Z.land v 3) 0
                (bin_data ++ [Z.lor (Z.shiftl leftchar 4) (Z.shiftr v 2)])
            else
              a2b_base64_from rest 0 0 0
                (bin_data ++ [Z.lor (Z.shiftl leftchar 6) v])
        end
  end.

Definition is_ascii_text (s : string) : bool :=
  forallb (fun c => (nat_of_ascii c <? 128)%nat) (list_ascii_of_string s).

(** [base64.b64decode(s)] for a [str] argument, default options. *)
Definition b64decode (s : string) : exn + list Byte.byte :=
  if is_ascii_text s then
    match a2b_base64_from s 0 0 0 [] with
    | inl e => inl e
    | inr bin_data => inr (map byte_of_Z bin_data)
    end
  else inl (Exn ValueError "string argument should contain only ASCII characters").

Definition lift_sum {A} (r : exn + A) : M A :=
  match r with
  | inl e => raise e
  | inr a => ret a
  end.

(** ** The adapter *)

(** [DaytonaComputer(screen_size, initial_url, ...)]. *)
Definition __init__ (screen_size : Z * Z) (initial_url search_engine_url : string)
    (network_block_all : bool) (network_allow_list : option string)
    (auto_stop_interval : Z) : DaytonaComputer :=
  {| _screen_size := screen_size;
     _initial_url := initial_url;
     _search_engine_url := search_engine_url;
     _network_block_all := network_block_all;
     _network_allow_list := network_allow_list;
     _auto_stop_interval := auto_stop_interval;
     _daytona := None;
     _sandbox := None;
     _current_url := initial_url |}.

(** The constructor's default arguments. *)
Definition default_initial_url : string := "https://www.duckduckgo.com/".
Definition default_search_engine_url : string := "https://duckduckgo.com/".
Definition default_network_allow_list : option string := Some "0.0.0.0/0".

Section Adapter.

(** [os.environ] and the Daytona SDK. *)
Variable environ : gmap string string.
Variable provider : provider_t.

(** One SDK call: it is recorded, then answered by the provider. *)
Definition sdk (c : call) : M (ret_type c) :=
  fun self h =>
    match provider h c with
    | inl e => (Raise e, self, [Call c])
    | inr v => (Ok v, self, [Call c])
    end.

Definition current_state : M EnvState :=
  sleep SLEEP_SCREENSHOT ;;
  screenshot_bytes <-
    try_except
      (sb <- self_sandbox "computer_use" ;;
       shot <- sdk (screenshot_take_compressed sb "png" true) ;;
       lift_sum (b64decode shot))
      Exception
      (fun e =>
         cprint ("Screenshot failed: " +:+ exn_str e) "red" false ;;
         raise e) ;;
  self <- get_self ;;
  ret {| screenshot := screenshot_bytes; url := _current_url self |}.

Definition __enter__ : M unit :=
  daytona <- sdk (Daytona_new (default EmptyString (environ !! "DAYTONA_API_KEY"))) ;;
  set_daytona (Some daytona) ;;
  try_except
    (self <- get_self ;;
     let params :=
       {| network_block_all := _network_block_all self;
          network_allow_list := _network_allow_list self;
          auto_stop_interval := _auto_stop_interval self |} in
     d <- self_daytona "create" ;;
     sandbox <- sdk (Daytona_create d params) ;;
     set_sandbox (Some sandbox) ;;
     sb <- self_sandbox "computer_use" ;;
     sdk (computer_use_start sb) ;;
     sb <- self_sandbox "id" ;;
     cprint ("Daytona sandbox started: " +:+ id sb) "green" true)
    is_DaytonaError
    (fun e =>
       cprint ("Failed to create sandbox: " +:+ exn_str e) "red" false ;;
       raise e).

Definition __exit__ : M unit :=
  self <- get_self ;;
  match _sandbox self with
  | Some sb =>
      try_except
        (sdk (sandbox_delete sb))
        Exception
        (fun e => cprint ("Sandbox cleanup failed: " +:+ exn_str e) "red" false)
  | None => ret tt
  end.

Definition screen_size : M (Z * Z) :=
  self <- get_self ;; ret (_screen_size self).

Definition open_web_browser : M EnvState :=
  self <- get_self ;;
  let cmd := "sh -c 'DISPLAY=:0 xdg-open " +:+ dquote +:+ _initial_url self
               +:+ dquote +:+ " > /dev/null 2>&1 &'" in
  sb <- self_sandbox "process" ;;
  sdk (process_exec sb cmd 1) ;;
  sleep SLEEP_NAVIGATION ;;
  self <- get_self ;;
  set_current_url (_initial_url self) ;;
  current_state.

Definition click_at (x y : Z) : M EnvState :=
  sb <- self_sandbox "computer_use" ;;
  sdk (mouse_click sb x y (Some "left")) ;;
  sleep SLEEP_ACTION ;;
  current_state.

Definition hover_at (x y : Z) : M EnvState :=
  sb <- self_sandbox "computer_use" ;;
  sdk (mouse_move sb x y) ;;
  sleep SLEEP_ACTION ;;
  current_state.

Definition type_text_at (x y : Z) (text : string)
    (press_enter clear_before_typing : bool) : M EnvState :=
  sb <- self_sandbox "computer_use" ;;
  sdk (mouse_click sb x y (Some "left")) ;;
  sleep SLEEP_ACTION ;;
  (if clear_before_typing then
     sb <- self_sandbox "computer_use" ;;
     sdk (keyboard_press sb "ctrl+a") ;;
     sleep SLEEP_ACTION
   else ret tt) ;;
  sb <- self_sandbox "computer_use" ;;
  sdk (keyboard_type sb text (Some 50)) ;;
  (if press_enter then
     sb <- self_sandbox "computer_use" ;;
     sdk (keyboard_press sb "enter") ;;
     sleep SLEEP_NAVIGATION
   else sleep SLEEP_ACTION) ;;
  current_state.

Definition scroll_at (x y : Z) (direction : string) (magnitude : Z) : M EnvState :=
  sb <- self_sandbox "computer_use" ;;
  sdk (mouse_click sb x y None) ;;
  sleep SLEEP_ACTION ;;
  (if String.eqb direction "down" then
     sb <- self_sandbox "computer_use" ;;
     sdk (keyboard_press sb "pagedown")
   else if String.eqb direction "up" then
     sb <- self_sandbox "computer_use" ;;
     sdk (keyboard_press sb "pageup")
   else if String.eqb direction "right" then
     sb <- self_sandbox "computer_use" ;;
     sdk (keyboard_press sb "space")
   else if String.eqb direction "left" then
     sb <- self_sandbox "computer_use" ;;
     sdk (keyboard_hotkey sb "shift+space")
   else raise (Exn ValueError ("Unsupported direction: " +:+ direction))) ;;
  sleep SLEEP_ACTION ;;
  current_state.

Definition scroll_document (direction : string) : M EnvState :=
  if String.eqb direction "down" then
    sb <- self_sandbox "computer_use" ;;
    sdk (keyboard_press sb "pagedown") ;;
    sleep SLEEP_ACTION ;;
    current_state
  else if String.eqb direction "up" then
    sb <- self_sandbox "computer_use" ;;
    sdk (keyboard_press sb "pageup") ;;
    sleep SLEEP_ACTION ;;
    current_state
  else if existsb (String.eqb direction) ["left"; "right"] then
    self <- get_self ;;
    let scroll_amount := fst (_screen_size self) / 2 in
    let center_x := fst (_screen_size self) / 2 in
    let center_y := snd (_screen_size self) / 2 in
    scroll_at center_x center_y direction scroll_amount
  else raise (Exn ValueError ("Unsupported direction: " +:+ direction)).

Definition wait_5_seconds : M EnvState :=
  sleep (Qmake 5 1) ;;
  current_state.

Definition go_back : M EnvState :=
  sb <- self_sandbox "computer_use" ;;
  sdk (keyboard_hotkey sb "alt+left") ;;
  sleep SLEEP_NAVIGATION ;;
  current_state.

Definition go_forward : M EnvState :=
  sb <- self_sandbox "computer_use" ;;
  sdk (keyboard_hotkey sb "alt+right") ;;
  sleep SLEEP_NAVIGATION ;;
  current_state.

(** The local [normalized_url] of [navigate]. *)
Definition normalized_url (url : string) : string :=
  if negb (startswith url ["http://"; "https://"]) then "https://" +:+ url
  else url.

Definition navigate (url : string) : M EnvState :=
  let normalized_url := normalized_url url in
  set_current_url normalized_url ;;
  sb <- self_sandbox "computer_use" ;;
  sdk (keyboard_press sb "f6") ;;
  sleep SLEEP_ACTION ;;
  sb <- self_sandbox "computer_use" ;;
  sdk (keyboard_type sb normalized_url None) ;;
  sleep SLEEP_ACTION ;;
  sb <- self_sandbox "computer_use" ;;
  sdk (keyboard_press sb "enter") ;;
  sleep SLEEP_NAVIGATION ;;
  current_state.

Definition search : M EnvState :=
  self <- get_self ;;
  navigate (_search_engine_url self).

(** The list comprehension of [key_combination]. *)
Definition normalized_keys (keys : list string) : list string :=
  map (fun k => default k (DAYTONA_KEY_MAP !! lower k)) keys.

(** [l[0]]. *)
Definition item0 (l : list string) : M string :=
  match l with
  | k :: _ => ret k
  | [] => raise (Exn IndexError "list index out of range")
  end.

Definition key_combination (keys : list string) : M EnvState :=
  let normalized_keys := normalized_keys keys in
  if (length normalized_keys =? 1)%nat then
    sb <- self_sandbox "computer_use" ;;
    k0 <- item0 normalized_keys ;;
    sdk (keyboard_press sb k0) ;;
    sleep SLEEP_ACTION ;;
    current_state
  else
    let hotkey_str := join "+" normalized_keys in
    sb <- self_sandbox "computer_use" ;;
    sdk (keyboard_hotkey sb hotkey_str) ;;
    sleep SLEEP_ACTION ;;
    current_state.

Definition drag_and_drop (x y destination_x destination_y : Z) : M EnvState :=
  sb <- self_sandbox "computer_use" ;;
  sdk (mouse_drag sb x y destination_x destination_y) ;;
  sleep SLEEP_ACTION ;;
  current_state.

End Adapter.

(** ** Scripted providers, for running the adapter on concrete inputs *)

Definition answer (shot : string) (c : call) : ret_type c :=
  match c return ret_type c with
  | Daytona_new key => {| api_key := key |}
  | Daytona_create _ _ => {| id := "sandbox-1" |}
  | screenshot_take_compressed _ _ _ => shot
  | _ => tt
  end.

(** Every call succeeds unless [fails] names an exception for it; a
    screenshot call answers the text [shot]. *)
Definition scripted (fails : call -> option exn) (shot : string) : provider_t :=
  fun _ c =>
    match fails c with
    | Some e => inl e
    | None => inr (answer shot c)
    end.

Definition never_fails (c : call) : option exn := None.

Definition create_fails (c : call) : option exn :=
  match c with
  | Daytona_create _ _ => Some (Exn DaytonaError "quota exceeded")
  | _ => None
  end.

Definition start_fails (c : call) : option exn :=
  match c with
  | computer_use_start _ => Some (Exn DaytonaError "computer use unavailable")
  | _ => None
  end.

Definition delete_fails (c : call) : option exn :=
  match c with
  | sandbox_delete _ => Some (Exn (OtherException "ConnectionError") "connection reset")
  | _ => None
  end.

Definition delete_interrupted (c : call) : option exn :=
  match c with
  | sandbox_delete _ => Some (Exn KeyboardInterrupt EmptyString)
  | _ => None
  end.

Definition capture_interrupted (c : call) : option exn :=
  match c with
  | screenshot_take_compressed _ _ _ => Some (Exn KeyboardInterrupt EmptyString)
  | _ => None
  end.

Definition capture_fails (c : call) : option exn :=
  match c with
  | screenshot_take_compressed _ _ _ => Some (Exn DaytonaError "capture timed out")
  | _ => None
  end.

Definition f6_fails (c : call) : option exn :=
  match c with
  | keyboard_press _ key =>
      if String.eqb key "f6" then Some (Exn DaytonaError "keyboard unavailable")
      else None
  | _ => None
  end.

Definition test_environ : gmap string string := <["DAYTONA_API_KEY" := "key-123"]> ∅.

Definition fresh : DaytonaComputer :=
  __init__ (1440, 900) default_initial_url default_search_engine_url false
    default_network_allow_list 30.

Definition sandbox1 : Sandbox := {| id := "sandbox-1" |}.

(** [fresh] after a successful [__enter__]. *)
Definition active : DaytonaComputer :=
  {| _screen_size := (1440, 900);
     _initial_url := default_initial_url;
     _search_engine_url := default_search_engine_url;
     _network_block_all := false;
     _network_allow_list := default_network_allow_list;
     _auto_stop_interval := 30;
     _daytona := Some {| api_key := "key-123" |};
     _sandbox := Some sandbox1;
     _current_url := default_initial_url |}.

(** ** A caller of the adapter *)

(** The public methods, as a caller invokes them. *)
Inductive action : Type :=
  | Enter
  | Exit
  | ScreenSize
  | OpenWebBrowser
  | ClickAt (x y : Z)
  | HoverAt (x y : Z)
  | TypeTextAt (x y : Z) (text : string) (press_enter clear_before_typing : bool)
  | ScrollDocument (direction : string)
  | ScrollAt (x y : Z) (direction : string) (magnitude : Z)
  | Wait5Seconds
  | GoBack
  | GoForward
  | Search
  | Navigate (url : string)
  | KeyCombination (keys : list string)
  | DragAndDrop (x y destination_x destination_y : Z)
  | CurrentState.

(** The methods that assign [self._current_url]. *)
Definition sets_url (a : action) : bool :=
  match a with
  | OpenWebBrowser | Search | Navigate _ => true
  | _ => false
  end.

Definition discard {A} (m : M A) : M unit := (_ <- m ;; ret tt)%py.

Definition call_method (environ : gmap string string) (provider : provider_t)
    (a : action) : M unit :=
  match a with
  | Enter => __enter__ environ provider
  | Exit => __exit__ provider
  | ScreenSize => discard screen_size
  | OpenWebBrowser => discard (open_web_browser provider)
  | ClickAt x y => discard (click_at provider x y)
  | HoverAt x y => discard (hover_at provider x y)
  | TypeTextAt x y text press_enter clear_before_typing =>
      discard (type_text_at provider x y text press_enter clear_before_typing)
  | ScrollDocument direction => discard (scroll_document provider direction)
  | ScrollAt x y direction magnitude =>
      discard (scroll_at provider x y direction magnitude)
  | Wait5Seconds => discard (wait_5_seconds provider)
  | GoBack => discard (go_back provider)
  | GoForward => discard (go_forward provider)
  | Search => discard (search provider)
  | Navigate url => discard (navigate provider url)
  | KeyCombination keys => discard (key_combination provider keys)
  | DragAndDrop x y destination_x destination_y =>
      discard (drag_and_drop provider x y destination_x destination_y)
  | CurrentState => discard (current_state provider)
  end.

(** A caller that invokes the methods one after the other and carries on
    whatever each of them returns or raises. *)
Fixpoint run_calls (environ : gmap string string) (provider : provider_t)
    (acts : list action) (self : DaytonaComputer) (h : list event)
    : DaytonaComputer * list event :=
  match acts with
  | [] => (self, [])
  | a :: rest =>
      match call_method environ provider a self h with
      | (_, self1, ev1) =>
          match run_calls environ provider rest self1 (h ++ ev1) with
          | (self2, ev2) => (self2, ev1 ++ ev2)
          end
      end
  end.

(** What [__enter__] prints when its [try] block raises [e]: the handler
    runs for a DaytonaError only. *)
Definition failure_line (e : exn) : list event :=
  if is_DaytonaError e
  then [Cprint ("Failed to create sandbox: " +:+ exn_str e) "red" false]
  else [].

(** What [__exit__] prints when the delete raises [e]: its handler runs for
    the instances of [Exception]. *)
Definition cleanup_line (e : exn) : list event :=
  if Exception e
  then [Cprint ("Sandbox cleanup failed: " +:+ exn_str e) "red" false]
  else [].

(** What [current_state] prints when its [try] block raises [e]. *)
Definition screenshot_line (e : exn) : list event :=
  if Exception e
  then [Cprint ("Screenshot failed: " +:+ exn_str e) "red" false]
  else [].

(** ** Vocabulary of the specification *)

(** The directions the scroll methods support. *)
Definition supported_direction (direction : string) : bool :=
  existsb (String.eqb direction) ["up"; "down"; "left"; "right"].

(** A method call that raises ValueError without any SDK call. *)
Definition raises_ValueError_without_calls {A}
    (o : result A * DaytonaComputer * list event) : Prop :=
  (exists msg, outcome_of o = Raise (Exn ValueError msg))
  /\ List.filter is_call (events_of o) = [].

(** The key-name mapping, written as a table: the lowercased name is looked
    up, and a name the table does not have is kept as it was given. *)
Definition translate_key (k : string) : string :=
  if String.eqb (lower k) "control" then "ctrl"
  else if String.eqb (lower k) "command" then "cmd"
  else if String.eqb (lower k) "meta" then "cmd"
  else k.

(** The specification's words, a scheme is present: the url begins with a
    scheme name (a letter, then letters, digits, plus, minus or dot) followed
    by a colon and two slashes. *)
Definition is_alpha (c : ascii) : bool :=
  let n := nat_of_ascii c in
  (((65 <=? n) && (n <=? 90)) || ((97 <=? n) && (n <=? 122)))%nat.

Definition is_scheme_char (c : ascii) : bool :=
  let n := nat_of_ascii c in
  (is_alpha c || ((48 <=? n) && (n <=? 57)) || (n =? 43) || (n =? 45) || (n =? 46))%nat.

Fixpoint scheme_tail (s : string) : bool :=
  match s with
  | EmptyString => false
  | String c rest =>
      if is_scheme_char c then scheme_tail rest else String.prefix "://" s
  end.

Definition scheme_present (url : string) : bool :=
  match url with
  | EmptyString => false
  | String c rest => is_alpha c && scheme_tail rest
  end.

(** Events that [current_state] itself may produce. *)
Definition is_capture (ev : event) : bool :=
  match ev with
  | Call (screenshot_take_compressed _ _ _) | Sleep _ | Cprint _ _ _ => true
  | _ => false
  end.

(** ** Frame conditions *)

(** A method body that leaves every attribute of [self] as it was, whatever
    the provider answers and whether it returns or raises. *)
Definition keeps_self {A} (m : M A) : Prop :=
  forall self h, self_of (m self h) = self.

(** A method body that leaves [self._current_url] as it was. *)
Definition keeps_url {A} (m : M A) : Prop :=
  forall self h, _current_url (self_of (m self h)) = _current_url self.

Create HintDb frame.

(** ** Vocabulary for traces *)

(** The methods that end in [return self.current_state()]. *)
Definition env_method (provider : provider_t) (a : action) : option (M EnvState) :=
  match a with
  | Enter | Exit | ScreenSize => None
  | OpenWebBrowser => Some (open_web_browser provider)
  | ClickAt x y => Some (click_at provider x y)
  | HoverAt x y => Some (hover_at provider x y)
  | TypeTextAt x y text press_enter clear_before_typing =>
      Some (type_text_at provider x y text press_enter clear_before_typing)
  | ScrollDocument direction => Some (scroll_document provider direction)
  | ScrollAt x y direction magnitude =>
      Some (scroll_at provider x y direction magnitude)
  | Wait5Seconds => Some (wait_5_seconds provider)
  | GoBack => Some (go_back provider)
  | GoForward => Some (go_forward provider)
  | Search => Some (search provider)
  | Navigate url => Some (navigate provider url)
  | KeyCombination keys => Some (key_combination provider keys)
  | DragAndDrop x y destination_x destination_y =>
      Some (drag_and_drop provider x y destination_x destination_y)
  | CurrentState => Some (current_state provider)
  end.

(** The sandbox a call is made on; the client calls have none. *)
Definition call_target (c : call) : option Sandbox :=
  match c with
  | Daytona_new _ | Daytona_create _ _ => None
  | computer_use_start sb | sandbox_delete sb | process_exec sb _ _
  | mouse_click sb _ _ _ | mouse_move sb _ _ | mouse_drag sb _ _ _ _
  | keyboard_press sb _ | keyboard_hotkey sb _ | keyboard_type sb _ _
  | screenshot_take_compressed sb _ _ => Some sb
  end.

Definition addressed_to (sb : Sandbox) (ev : event) : Prop :=
  match ev with
  | Call c => call_target c = Some sb
  | _ => True
  end.

(** Whether the event [ev], occurring after the history [h], is an SDK call
    that the provider answers with an exception. *)
Definition call_failed (provider : provider_t) (h : list event) (ev : event) : bool :=
  match ev with
  | Call c => match provider h c with inl _ => true | inr _ => false end
  | _ => false
  end.

Fixpoint some_call_failed (provider : provider_t) (h evs : list event) : bool :=
  match evs with
  | [] => false
  | ev :: rest =>
      call_failed provider h ev || some_call_failed provider (h ++ [ev]) rest
  end.

(** No SDK call comes after an SDK call that raised. *)
Fixpoint stops_at_failure (provider : provider_t) (h evs : list event) : Prop :=
  match evs with
  | [] => True
  | ev :: rest =>
      (call_failed provider h ev = true -> List.filter is_call rest = [])
      /\ stops_at_failure provider (h ++ [ev]) rest
  end.

(** A method body that makes no SDK call. *)
Definition silent {A} (m : M A) : Prop :=
  forall self h, List.filter is_call (events_of (m self h)) = [].

(** A method body that never returns normally. *)
Definition always_raises {A} (m : M A) : Prop :=
  forall self h, exists e, outcome_of (m self h) = Raise e.

(** A method body whose SDK calls stop at the first one that raises, and
    that does not return normally after a call of its own has raised. *)
Definition fail_fast (provider : provider_t) {A} (m : M A) : Prop :=
  forall self h,
    stops_at_failure provider h (events_of (m self h))
    /\ ((exists a, outcome_of (m self h) = Ok a) ->
        some_call_failed provider h (events_of (m self h)) = false).

(** A method body that, run with the handle [sb] stored, keeps it stored and
    makes its calls on [sb] only. *)
Definition owned (sb : Sandbox) {A} (m : M A) : Prop :=
  forall self h,
    _sandbox self = Some sb ->
    _sandbox (self_of (m self h)) = Some sb
    /\ Forall (addressed_to sb) (events_of (m self h)).

(** A method body that, when it returns a state, has captured it as its last
    step: the events end with the screenshot delay and the capture call, the
    screenshot is the decoded answer to that call, and the url is the
    tracked url of the object as the method leaves it. *)
Definition fresh_state (provider : provider_t) (m : M EnvState) : Prop :=
  forall self h st self1 ev,
    m self h = (Ok st, self1, ev) ->
    url st = _current_url self1
    /\ exists pre sb shot,
         _sandbox self1 = Some sb
         /\ ev = pre ++ [Sleep SLEEP_SCREENSHOT;
                         Call (screenshot_take_compressed sb "png" true)]
         /\ provider (h ++ pre ++ [Sleep SLEEP_SCREENSHOT])
              (screenshot_take_compressed sb "png" true) = inr shot
         /\ b64decode shot = inr (screenshot st).

(** The key event [scroll_at] sends for a direction. *)
Definition scroll_key (sb : Sandbox) (direction : string) : call :=
  if String.eqb direction "down" then keyboard_press sb "pagedown"
  else if String.eqb direction "up" then keyboard_press sb "pageup"
  else if String.eqb direction "right" then keyboard_press sb "space"
  else keyboard_hotkey sb "shift+space".

(** The shell command of [open_web_browser]. *)
Definition xdg_open_command (initial_url : string) : string :=
  "sh -c 'DISPLAY=:0 xdg-open " +:+ dquote +:+ initial_url
    +:+ dquote +:+ " > /dev/null 2>&1 &'".

Definition all_succeed : provider_t := scripted never_fails "aGk=".

Definition click_fails (c : call) : option exn :=
  match c with
  | mouse_click _ _ _ _ => Some (Exn DaytonaError "mouse unavailable")
  | _ => None
  end.

Definition exec_fails (c : call) : option exn :=
  match c with
  | process_exec _ _ _ => Some (Exn DaytonaError "exec timed out")
  | _ => None
  end.

Definition new_fails (c : call) : option exn :=
  match c with
  | Daytona_new _ => Some (Exn DaytonaError "API key or JWT token is required")
  | _ => None
  end.

Definition create_breaks (c : call) : option exn :=
  match c with
  | Daytona_create _ _ => Some (Exn (OtherException "ConnectionError") "network down")
  | _ => None
  end.

Definition is_cprint (ev : event) : bool :=
  match ev with Cprint _ _ _ => true | _ => false end.

(** The attributes that hold the constructor's configuration. *)
Definition config (self : DaytonaComputer)
    : Z * Z * string * string * bool * option string * Z :=
  (_screen_size self, _initial_url self, _search_engine_url self,
   _network_block_all self, _network_allow_list self, _auto_stop_interval self).

Definition is_http (u : string) : bool := startswith u ["http://"; "https://"].

(** ** Running a method body symbolically *)

Ltac open_monad :=
  cbv beta iota zeta delta
    [try_except bind ret raise sleep cprint emit get_self self_sandbox
     self_daytona lift_sum sdk set_current_url set_sandbox
     set_daytona discard item0 outcome_of self_of events_of] in *.

Arguments b64decode : simpl never.
Arguments normalized_url : simpl never.
Arguments normalized_keys : simpl never.
Arguments join : simpl never.
Arguments String.append : simpl never.

(** Histories are compared up to the monoid laws of list append. *)
Ltac tidy := rewrite ?app_nil_r, <- ?app_assoc; simpl.

(** Case analysis on the answer of the next SDK call in the goal. *)
Ltac next_call :=
  match goal with
  | |- context [match ?p ?h ?c with inl _ => _ | inr _ => _ end] =>
      let E := fresh "Hcall" in destruct (p h c) eqn:E
  end.

(** ** The library functions on known inputs *)

Example b64decode_padded :
  b64decode "aGk=" = inr [Byte.x68; Byte.x69].
Proof. reflexivity. Qed.

Example b64decode_skips_foreign_characters :
  b64decode "Q!Q==" = inr [Byte.x41].
Proof. reflexivity. Qed.

Example b64decode_stops_at_padding :
  b64decode "QQ==QUJD" = inr [Byte.x41].
Proof. reflexivity. Qed.

Example b64decode_missing_padding :
  b64decode "QQ" = inl (Exn BinasciiError "Incorrect padding").
Proof. reflexivity. Qed.

Example b64decode_one_character :
  b64decode "A" =
    inl (Exn BinasciiError
           "Invalid base64-encoded string: number of data characters (1) cannot be 1 more than a multiple of 4").
Proof. reflexivity. Qed.

Example lower_mixed_case : lower "Ctrl+SHIFT_9" = "ctrl+shift_9".
Proof. reflexivity. Qed.

Example open_web_browser_command :
  events_of (open_web_browser (scripted never_fails "aGk=") active []) =
    [Call (process_exec sandbox1
             ("sh -c 'DISPLAY=:0 xdg-open " +:+ dquote +:+ "https://www.duckduckgo.com/"
                +:+ dquote +:+ " > /dev/null 2>&1 &'") 1);
     Sleep SLEEP_NAVIGATION; Sleep SLEEP_SCREENSHOT;
     Call (screenshot_take_compressed sandbox1 "png" true)].
Proof. reflexivity. Qed.

Example type_text_at_events :
  events_of (type_text_at (scripted never_fails "aGk=") 5 6 "hello" true true active []) =
    [Call (mouse_click sandbox1 5 6 (Some "left")); Sleep SLEEP_ACTION;
     Call (keyboard_press sandbox1 "ctrl+a"); Sleep SLEEP_ACTION;
     Call (keyboard_type sandbox1 "hello" (Some 50));
     Call (keyboard_press sandbox1 "enter"); Sleep SLEEP_NAVIGATION;
     Sleep SLEEP_SCREENSHOT;
     Call (screenshot_take_compressed sandbox1 "png" true)].
Proof. reflexivity. Qed.

(** ** Session end *)

Section Teardown.

Variable provider : provider_t.

(** With no handle, [__exit__] does nothing at all. *)
Lemma exit_without_handle (self : DaytonaComputer) (h : list event) :
  _sandbox self = None -> __exit__ provider self h = (Ok tt, self, []).
Proof.
  intros Hnone. unfold __exit__. open_monad. now rewrite Hnone.
Qed.

(** With a handle, [__exit__] issues the delete; a failure of the delete that
    is an instance of [Exception] is printed and dropped, any other one
    leaves [__exit__] as it came. *)
Lemma exit_with_handle (self : DaytonaComputer) (h : list event) (sb : Sandbox) :
  _sandbox self = Some sb ->
  __exit__ provider self h =
    match provider h (sandbox_delete sb) with
    | inr _ => (Ok tt, self, [Call (sandbox_delete sb)])
    | inl e =>
        (if Exception e then Ok tt else Raise e, self,
         Call (sandbox_delete sb) :: cleanup_line e)
    end.
Proof.
  intros Hsome. unfold __exit__, cleanup_line. open_monad. rewrite Hsome. tidy.
  destruct (provider h (sandbox_delete sb)) as [e | []]; [| reflexivity].
  destruct (Exception e); reflexivity.
Qed.

Lemma cleanup_line_quiet (e : exn) :
  List.filter is_call (cleanup_line e) = []
  /\ List.filter is_delete (cleanup_line e) = [].
Proof. unfold cleanup_line. now destruct (Exception e). Qed.

(** The calls of [__exit__] when a handle is stored: the delete, alone. *)
Lemma exit_calls (self : DaytonaComputer) (h : list event) (sb : Sandbox) :
  _sandbox self = Some sb ->
  List.filter is_call (events_of (__exit__ provider self h)) = [Call (sandbox_delete sb)]
  /\ List.filter is_delete (events_of (__exit__ provider self h))
     = [Call (sandbox_delete sb)].
Proof.
  intros Hsb. rewrite (exit_with_handle self h sb Hsb).
  destruct (provider h (sandbox_delete sb)) as [e | []]; [| now split].
  unfold events_of. cbn [snd List.filter is_call is_delete].
  destruct (cleanup_line_quiet e) as [-> ->]. now split.
Qed.

End Teardown.

Section Capture.

Variable provider : provider_t.

(** Decoding fails with [binascii.Error] or [ValueError] only, which are
    instances of [Exception]. *)
Lemma a2b_base64_error (data : string) :
  forall quad_pos leftchar pads bin_data e,
    a2b_base64_from data quad_pos leftchar pads bin_data = inl e ->
    exn_cls e = BinasciiError.
Proof.
  induction data as [| c rest IH]; intros q l p b e Herr;
    cbn [a2b_base64_from] in Herr.
  - destruct (q =? 0); [discriminate |].
    destruct (q =? 1); inversion Herr; reflexivity.
  - destruct (Ascii.eqb c "="%char).
    + destruct (2 <=? q); [| now eauto].
      destruct (4 <=? q + (p + 1)); [discriminate | now eauto].
    + destruct (table_a2b_base64 c); [| now eauto].
      destruct (q =? 0); [now eauto |].
      destruct (q =? 1); [now eauto |].
      destruct (q =? 2); now eauto.
Qed.

Lemma b64decode_Exception (s : string) (e : exn) :
  b64decode s = inl e -> Exception e = true.
Proof.
  unfold b64decode. destruct (is_ascii_text s).
  - destruct (a2b_base64_from s 0 0 0 []) as [e' | bin_data] eqn:Hdecode;
      [| discriminate].
    intros Herr. inversion Herr; subst.
    unfold Exception. now rewrite (a2b_base64_error _ _ _ _ _ _ Hdecode).
  - intros Herr. inversion Herr; subst. reflexivity.
Qed.

(** The ways [current_state] can end once a session handle is there: the
    capture raises, the payload does not decode, or both succeed. *)
Lemma current_state_active (self : DaytonaComputer) (h : list event) (sb : Sandbox) :
  _sandbox self = Some sb ->
  current_state provider self h =
    let capture := screenshot_take_compressed sb "png" true in
    match provider (h ++ [Sleep SLEEP_SCREENSHOT]) capture with
    | inl e =>
        (Raise e, self,
         Sleep SLEEP_SCREENSHOT :: Call capture :: screenshot_line e)
    | inr shot =>
        match b64decode shot with
        | inl e =>
            (Raise e, self,
             [Sleep SLEEP_SCREENSHOT; Call capture;
              Cprint ("Screenshot failed: " +:+ exn_str e) "red" false])
        | inr screenshot_bytes =>
            (Ok {| screenshot := screenshot_bytes; url := _current_url self |},
             self, [Sleep SLEEP_SCREENSHOT; Call capture])
        end
    end.
Proof.
  intros Hsb. unfold current_state, screenshot_line. open_monad. rewrite Hsb. tidy.
  destruct (provider _ _) as [e | shot]; [destruct (Exception e); reflexivity |].
  tidy. destruct (b64decode shot) as [e | screenshot_bytes] eqn:Hdecode;
    [| reflexivity].
  now rewrite (b64decode_Exception shot e Hdecode).
Qed.

Lemma screenshot_line_capture (e : exn) :
  forallb is_capture (screenshot_line e) = true
  /\ List.filter is_call (screenshot_line e) = [].
Proof. unfold screenshot_line. now destruct (Exception e). Qed.

(** Without a handle the attribute access inside the [try] raises. *)
Lemma current_state_inactive (self : DaytonaComputer) (h : list event) :
  _sandbox self = None ->
  current_state provider self h =
    let e := NoneType_has_no_attribute "computer_use" in
    (Raise e, self,
     [Sleep SLEEP_SCREENSHOT;
      Cprint ("Screenshot failed: " +:+ exn_str e) "red" false]).
Proof.
  intros Hsb. unfold current_state. open_monad. now rewrite Hsb.
Qed.

Lemma current_state_self (self : DaytonaComputer) (h : list event) :
  self_of (current_state provider self h) = self.
Proof.
  destruct (_sandbox self) as [sb |] eqn:Hsb.
  - rewrite (current_state_active self h sb Hsb). cbv zeta.
    destruct (provider _ _) as [e | shot]; [reflexivity |].
    destruct (b64decode shot); reflexivity.
  - now rewrite (current_state_inactive self h Hsb).
Qed.

Lemma current_state_events (self : DaytonaComputer) (h : list event) :
  forallb is_capture (events_of (current_state provider self h)) = true.
Proof.
  destruct (_sandbox self) as [sb |] eqn:Hsb.
  - rewrite (current_state_active self h sb Hsb). cbv zeta.
    destruct (provider _ _) as [e | shot];
      [exact (proj1 (screenshot_line_capture e)) |].
    destruct (b64decode shot); reflexivity.
  - now rewrite (current_state_inactive self h Hsb).
Qed.

Lemma current_state_url (self self1 : DaytonaComputer) (h ev : list event)
    (st : EnvState) :
  current_state provider self h = (Ok st, self1, ev) ->
  url st = _current_url self.
Proof.
  intros Hrun.
  destruct (_sandbox self) as [sb |] eqn:Hsb.
  - rewrite (current_state_active self h sb Hsb) in Hrun. cbv zeta in Hrun.
    destruct (provider _ _) as [e | shot]; [discriminate |].
    destruct (b64decode shot); [discriminate |].
    now inversion Hrun.
  - rewrite (current_state_inactive self h Hsb) in Hrun. discriminate.
Qed.

End Capture.

(** ** Which methods touch the adapter's attributes *)

Section Frame.

Variable environ : gmap string string.
Variable provider : provider_t.

Lemma keeps_self_ret {A} (a : A) : keeps_self (ret a).
Proof. intros self h. reflexivity. Qed.

Lemma keeps_self_raise {A} (e : exn) : keeps_self (@raise A e).
Proof. intros self h. reflexivity. Qed.

Lemma keeps_self_get : keeps_self get_self.
Proof. intros self h. reflexivity. Qed.

Lemma keeps_self_sleep (d : Q) : keeps_self (sleep d).
Proof. intros self h. reflexivity. Qed.

Lemma keeps_self_cprint (text color : string) (bold : bool) :
  keeps_self (cprint text color bold).
Proof. intros self h. reflexivity. Qed.

Lemma keeps_self_sdk (c : call) : keeps_self (sdk provider c).
Proof. intros self h. unfold sdk, self_of. now destruct (provider h c). Qed.

Lemma keeps_self_lift {A} (r : exn + A) : keeps_self (lift_sum r).
Proof. intros self h. now destruct r. Qed.

Lemma keeps_self_item0 (l : list string) : keeps_self (item0 l).
Proof. intros self h. now destruct l. Qed.

Lemma keeps_self_sandbox (attr : string) : keeps_self (self_sandbox attr).
Proof. intros self h. unfold self_sandbox. open_monad. now destruct (_sandbox self). Qed.

Lemma keeps_self_bind {A B} (m : M A) (k : A -> M B) :
  keeps_self m -> (forall a, keeps_self (k a)) -> keeps_self (bind m k).
Proof.
  intros Hm Hk self h. specialize (Hm self h). unfold bind, self_of in *.
  destruct (m self h) as [[[a | e] self1] ev1]; simpl in Hm; subst self1.
  - specialize (Hk a self (h ++ ev1)). unfold self_of in Hk.
    now destruct (k a self (h ++ ev1)) as [[r self2] ev2].
  - reflexivity.
Qed.

Lemma keeps_self_try {A} (body : M A) (catches : exn -> bool) (handler : exn -> M A) :
  keeps_self body -> (forall e, keeps_self (handler e)) ->
  keeps_self (try_except body catches handler).
Proof.
  intros Hm Hk self h. specialize (Hm self h). unfold try_except, self_of in *.
  destruct (body self h) as [[[a | e] self1] ev1]; simpl in Hm; subst self1.
  - reflexivity.
  - destruct (catches e); [| reflexivity].
    specialize (Hk e self (h ++ ev1)). unfold self_of in Hk.
    now destruct (handler e self (h ++ ev1)) as [[r self2] ev2].
Qed.

Lemma keeps_self_if {A} (b : bool) (m1 m2 : M A) :
  keeps_self m1 -> keeps_self m2 -> keeps_self (if b then m1 else m2).
Proof. now destruct b. Qed.

Hint Resolve keeps_self_ret keeps_self_raise keeps_self_get keeps_self_sleep
  keeps_self_cprint keeps_self_sdk keeps_self_lift keeps_self_item0
  keeps_self_sandbox : frame.

Ltac frame :=
  repeat first
    [ progress auto with frame
    | match goal with
      | |- keeps_self (sdk _ ?c) => exact (keeps_self_sdk c)
      end
    | apply keeps_self_bind; [| intro]
    | apply keeps_self_try; [| intro]
    | apply keeps_self_if ].

Lemma keeps_self_current_state : keeps_self (current_state provider).
Proof. unfold current_state. frame. Qed.

Hint Resolve keeps_self_current_state : frame.

Lemma keeps_self_exit : keeps_self (__exit__ provider).
Proof.
  unfold __exit__. apply keeps_self_bind; [frame |].
  intros self. destruct (_sandbox self); frame.
Qed.

Lemma keeps_self_screen_size : keeps_self screen_size.
Proof. unfold screen_size. frame. Qed.

Lemma keeps_self_click_at (x y : Z) : keeps_self (click_at provider x y).
Proof. unfold click_at. frame. Qed.

Lemma keeps_self_hover_at (x y : Z) : keeps_self (hover_at provider x y).
Proof. unfold hover_at. frame. Qed.

Lemma keeps_self_type_text_at (x y : Z) (text : string) (pe cb : bool) :
  keeps_self (type_text_at provider x y text pe cb).
Proof. unfold type_text_at. frame. Qed.

Lemma keeps_self_scroll_at (x y : Z) (direction : string) (magnitude : Z) :
  keeps_self (scroll_at provider x y direction magnitude).
Proof. unfold scroll_at. frame. Qed.

Hint Resolve keeps_self_scroll_at : frame.

Lemma keeps_self_scroll_document (direction : string) :
  keeps_self (scroll_document provider direction).
Proof. unfold scroll_document. frame. Qed.

Lemma keeps_self_wait_5_seconds : keeps_self (wait_5_seconds provider).
Proof. unfold wait_5_seconds. frame. Qed.

Lemma keeps_self_go_back : keeps_self (go_back provider).
Proof. unfold go_back. frame. Qed.

Lemma keeps_self_go_forward : keeps_self (go_forward provider).
Proof. unfold go_forward. frame. Qed.

Lemma keeps_self_key_combination (keys : list string) :
  keeps_self (key_combination provider keys).
Proof. unfold key_combination. frame. Qed.

Lemma keeps_self_drag_and_drop (x y dx dy : Z) :
  keeps_self (drag_and_drop provider x y dx dy).
Proof. unfold drag_and_drop. frame. Qed.

Lemma keeps_self_discard {A} (m : M A) : keeps_self m -> keeps_self (discard m).
Proof. intros Hm. unfold discard. frame. Qed.

(** In every outcome of [navigate] the object is the one it started from
    with the tracked url replaced: the assignment comes first and nothing
    after it touches [self]. *)
Lemma navigate_self (url : string) (self : DaytonaComputer) (h : list event) :
  self_of (navigate provider url self h)
  = assign_current_url self (normalized_url url).
Proof.
  unfold navigate.
  assert (Hrest : keeps_self
            (sb <- self_sandbox "computer_use" ;;
             sdk provider (keyboard_press sb "f6") ;;
             sleep SLEEP_ACTION ;;
             sb <- self_sandbox "computer_use" ;;
             sdk provider (keyboard_type sb (normalized_url url) None) ;;
             sleep SLEEP_ACTION ;;
             sb <- self_sandbox "computer_use" ;;
             sdk provider (keyboard_press sb "enter") ;;
             sleep SLEEP_NAVIGATION ;;
             current_state provider)) by frame.
  specialize (Hrest (assign_current_url self (normalized_url url)) (h ++ [])).
  unfold bind at 1. unfold set_current_url. unfold self_of in *.
  destruct (bind (self_sandbox "computer_use") _ _ _) as [[r self2] ev2].
  exact Hrest.
Qed.

Lemma keeps_self_url {A} (m : M A) : keeps_self m -> keeps_url m.
Proof. intros Hm self h. now rewrite Hm. Qed.

(** [__enter__] assigns [_daytona] and [_sandbox] only. *)
Lemma keeps_url_enter : keeps_url (__enter__ environ provider).
Proof.
  intros self h. unfold __enter__. open_monad.
  repeat (simpl; try next_call; try reflexivity;
          try match goal with
            | |- context [is_DaytonaError ?e] => destruct (is_DaytonaError e)
            end).
Qed.

(** Every method but [open_web_browser], [search] and [navigate] leaves
    the tracked url alone. *)
Lemma call_method_keeps_url (a : action) :
  sets_url a = false -> keeps_url (call_method environ provider a).
Proof.
  destruct a; simpl; try discriminate; intros _;
    try apply keeps_url_enter;
    apply keeps_self_url; try apply keeps_self_discard;
    auto using keeps_self_exit, keeps_self_screen_size, keeps_self_click_at,
      keeps_self_hover_at, keeps_self_type_text_at, keeps_self_scroll_document,
      keeps_self_scroll_at, keeps_self_wait_5_seconds, keeps_self_go_back,
      keeps_self_go_forward, keeps_self_key_combination,
      keeps_self_drag_and_drop, keeps_self_current_state.
Qed.

Lemma run_calls_keeps_url (acts : list action) :
  forallb (fun a => negb (sets_url a)) acts = true ->
  forall self h,
    _current_url (fst (run_calls environ provider acts self h)) = _current_url self.
Proof.
  induction acts as [| a rest IH]; intros Hall self h; [reflexivity |].
  simpl in Hall. apply andb_prop in Hall. destruct Hall as [Ha Hrest].
  apply negb_true_iff in Ha.
  pose proof (call_method_keeps_url a Ha self h) as Hstep.
  simpl. unfold self_of in Hstep.
  destruct (call_method environ provider a self h) as [[r self1] ev1].
  simpl in Hstep.
  specialize (IH Hrest self1 (h ++ ev1)).
  destruct (run_calls environ provider rest self1 (h ++ ev1)) as [self2 ev2].
  simpl in *. congruence.
Qed.

End Frame.

(** ** Scrolling *)

Lemma unsupported_tests (direction : string) :
  supported_direction direction = false ->
  String.eqb direction "up" = false /\ String.eqb direction "down" = false
  /\ String.eqb direction "left" = false /\ String.eqb direction "right" = false.
Proof.
  unfold supported_direction. simpl. rewrite !orb_false_iff. tauto.
Qed.

(** C1, as amended: for an unsupported direction [scroll_document] raises
    ValueError at once, with no SDK call and no other event; [scroll_at]
    first issues its focusing mouse click, and raises ValueError only after
    that click and the action delay (or passes on the click's own error). *)
Theorem unsupported_direction_raises (provider : provider_t) (direction : string)
    (self : DaytonaComputer) (h : list event) :
  supported_direction direction = false ->
  scroll_document provider direction self h =
    (Raise (Exn ValueError ("Unsupported direction: " +:+ direction)), self, [])
  /\ raises_ValueError_without_calls (scroll_document provider direction self h)
  /\ forall sb x y magnitude,
      _sandbox self = Some sb ->
      scroll_at provider x y direction magnitude self h =
        match provider h (mouse_click sb x y None) with
        | inl e => (Raise e, self, [Call (mouse_click sb x y None)])
        | inr _ =>
            (Raise (Exn ValueError ("Unsupported direction: " +:+ direction)), self,
             [Call (mouse_click sb x y None); Sleep SLEEP_ACTION])
        end.
Proof.
  intros Hd. destruct (unsupported_tests direction Hd) as (Hu & Hdn & Hl & Hr).
  assert (Hdoc : scroll_document provider direction self h =
            (Raise (Exn ValueError ("Unsupported direction: " +:+ direction)), self, [])).
  { unfold scroll_document. simpl. now rewrite Hu, Hdn, Hl, Hr. }
  split; [exact Hdoc |]. split.
  - rewrite Hdoc. split; [eexists |]; reflexivity.
  - intros sb x y magnitude Hsb.
    unfold scroll_at. rewrite Hu, Hdn, Hl, Hr. open_monad. rewrite Hsb. tidy.
    destruct (provider h (mouse_click sb x y None)); reflexivity.
Qed.

Lemma unsupported_direction_raises_witness :
  supported_direction "diagonal" = false
  /\ scroll_document (scripted never_fails "aGk=") "diagonal" active [] =
       (Raise (Exn ValueError "Unsupported direction: diagonal"), active, [])
  /\ scroll_at (scripted never_fails "aGk=") 10 20 "diagonal" 800 active [] =
       (Raise (Exn ValueError "Unsupported direction: diagonal"), active,
        [Call (mouse_click sandbox1 10 20 None); Sleep SLEEP_ACTION]).
Proof.
  pose proof (unsupported_direction_raises (scripted never_fails "aGk=") "diagonal"
                active [] eq_refl) as (Hdoc & _ & Hat).
  split; [reflexivity |]. split; [exact Hdoc |].
  exact (Hat sandbox1 10 20 800 eq_refl).
Defined.

(** C1, as stated, fails for [scroll_at]: on "diagonal" it has already sent a
    mouse click to the sandbox when it raises. *)
Lemma scroll_at_unsupported_clicks_first :
  supported_direction "diagonal" = false
  /\ ~ raises_ValueError_without_calls
         (scroll_at (scripted never_fails "aGk=") 10 20 "diagonal" 800 active []).
Proof.
  split; [reflexivity |].
  intros [_ Hnone]. vm_compute in Hnone. discriminate.
Qed.

(** C9: [scroll_at] never reads its magnitude: two calls that differ only in
    the magnitude are the same computation, for every direction. *)
Theorem scroll_at_ignores_magnitude (provider : provider_t) (x y : Z)
    (direction : string) (m1 m2 : Z) (self : DaytonaComputer) (h : list event) :
  scroll_at provider x y direction m1 self h
  = scroll_at provider x y direction m2 self h.
Proof. reflexivity. Qed.

(** ** Methods that send one input event and then capture the screen *)

Lemma capture_only_filters (l : list event) :
  forallb is_capture l = true ->
  List.filter is_key_event l = [] /\ List.filter is_mouse_click l = []
  /\ List.filter is_delete l = [].
Proof.
  induction l as [| ev l IH]; [now auto |].
  simpl. intros Hall. apply andb_prop in Hall. destruct Hall as [Hev Hl].
  destruct (IH Hl) as (Hk & Hm & Hd).
  destruct ev as [[] | |]; simpl in *; try discriminate; auto.
Qed.

(** Name the events of the closing [current_state] call of the goal, and
    record that none of them is a key event, a mouse click or a delete. *)
Ltac capture_tail :=
  match goal with
  | |- context [current_state ?p ?self ?h] =>
      let Hcap := fresh "Hcap" in
      pose proof (current_state_events p self h) as Hcap;
      unfold events_of in Hcap;
      let r := fresh "r" in
      let self1 := fresh "self1" in
      let ev := fresh "ev" in
      destruct (current_state p self h) as [[r self1] ev];
      cbn [fst snd] in Hcap |- *;
      let Hkeys := fresh "Hkeys" in
      let Hclicks := fresh "Hclicks" in
      let Hdeletes := fresh "Hdeletes" in
      destruct (capture_only_filters ev Hcap) as (Hkeys & Hclicks & Hdeletes)
  end.

(** [self._sandbox.<...>(<args>); time.sleep(d); return self.current_state()]
    with a session handle: the call comes first, and whatever follows is the
    delay and the capture. *)
Lemma one_call_then_capture (provider : provider_t) (c : Sandbox -> call)
    (attr : string) (d : Q) (self : DaytonaComputer) (h : list event) (sb : Sandbox) :
  _sandbox self = Some sb ->
  exists tail,
    events_of
      ((sb <- self_sandbox attr ;;
        sdk provider (c sb) ;;
        sleep d ;;
        current_state provider) self h) = Call (c sb) :: tail
    /\ forallb is_capture tail = true.
Proof.
  intros Hsb. open_monad. rewrite Hsb. tidy.
  destruct (provider h (c sb)) as [e | v].
  - exists []. split; reflexivity.
  - tidy. pose proof (current_state_events provider self (h ++ [Call (c sb); Sleep d])) as Hcap.
    unfold events_of in Hcap.
    destruct (current_state provider self (h ++ [Call (c sb); Sleep d])) as [[r self1] ev].
    simpl in *. exists (Sleep d :: ev). split; [reflexivity |]. exact Hcap.
Qed.

Lemma one_call_key_events (provider : provider_t) (c : Sandbox -> call)
    (attr : string) (d : Q) (self : DaytonaComputer) (h : list event) (sb : Sandbox) :
  _sandbox self = Some sb ->
  is_key_event (Call (c sb)) = true ->
  let o := (sb <- self_sandbox attr ;;
            sdk provider (c sb) ;;
            sleep d ;;
            current_state provider) self h in
  List.filter is_key_event (events_of o) = [Call (c sb)]
  /\ List.filter is_mouse_click (events_of o) = [].
Proof.
  intros Hsb Hkey o.
  destruct (one_call_then_capture provider c attr d self h sb Hsb) as (tail & Hev & Hcap).
  subst o. rewrite Hev.
  destruct (capture_only_filters tail Hcap) as (Hk & Hm & _).
  cbn [List.filter]. rewrite Hkey, Hk. split; [reflexivity |].
  destruct (c sb); simpl in *; try discriminate; exact Hm.
Qed.

(** C4: for left and right [scroll_document] is the call of [scroll_at] at
    the centre of the screen with magnitude half the width; for up and down
    it sends exactly one key press, PageUp or PageDown, and no mouse click. *)
Theorem scroll_document_cases (provider : provider_t) (self : DaytonaComputer)
    (h : list event) (sb : Sandbox) :
  _sandbox self = Some sb ->
  (forall direction, direction = "left" \/ direction = "right" ->
     scroll_document provider direction self h =
     scroll_at provider (fst (_screen_size self) / 2) (snd (_screen_size self) / 2)
       direction (fst (_screen_size self) / 2) self h)
  /\ (List.filter is_key_event (events_of (scroll_document provider "down" self h))
        = [Call (keyboard_press sb "pagedown")]
      /\ List.filter is_mouse_click (events_of (scroll_document provider "down" self h)) = [])
  /\ (List.filter is_key_event (events_of (scroll_document provider "up" self h))
        = [Call (keyboard_press sb "pageup")]
      /\ List.filter is_mouse_click (events_of (scroll_document provider "up" self h)) = []).
Proof.
  intros Hsb. split; [| split].
  - intros direction [-> | ->]; unfold scroll_document; simpl;
      unfold bind at 1, get_self; simpl; tidy;
      destruct (scroll_at _ _ _ _ _ _ _) as [[r self1] ev]; reflexivity.
  - exact (one_call_key_events provider (fun sb => keyboard_press sb "pagedown")
             "computer_use" SLEEP_ACTION self h sb Hsb eq_refl).
  - exact (one_call_key_events provider (fun sb => keyboard_press sb "pageup")
             "computer_use" SLEEP_ACTION self h sb Hsb eq_refl).
Qed.

Lemma scroll_document_cases_witness :
  _sandbox active = Some sandbox1
  /\ scroll_document (scripted never_fails "aGk=") "left" active [] =
       scroll_at (scripted never_fails "aGk=") 720 450 "left" 720 active []
  /\ List.filter is_key_event
       (events_of (scroll_document (scripted never_fails "aGk=") "down" active []))
       = [Call (keyboard_press sandbox1 "pagedown")].
Proof.
  pose proof (scroll_document_cases (scripted never_fails "aGk=") active []
                sandbox1 eq_refl) as (Hside & (Hdown & _) & _).
  split; [reflexivity |]. split.
  - exact (Hside "left" (or_introl eq_refl)).
  - exact Hdown.
Defined.

(** ** Key combinations *)

(** The dictionary lookup agrees with the table read off the source. *)
Lemma key_map_lookup (s : string) :
  DAYTONA_KEY_MAP !! s =
    if String.eqb s "control" then Some "ctrl"
    else if String.eqb s "command" then Some "cmd"
    else if String.eqb s "meta" then Some "cmd"
    else None.
Proof.
  unfold DAYTONA_KEY_MAP.
  destruct (String.eqb_spec s "control") as [-> | Hcontrol]; [reflexivity |].
  rewrite lookup_insert_ne by congruence.
  destruct (String.eqb_spec s "command") as [-> | Hcommand]; [reflexivity |].
  rewrite lookup_insert_ne by congruence.
  destruct (String.eqb_spec s "meta") as [-> | Hmeta]; [reflexivity |].
  rewrite lookup_insert_ne by congruence.
  apply lookup_empty.
Qed.

Lemma normalized_keys_translate (keys : list string) :
  normalized_keys keys = List.map translate_key keys.
Proof.
  unfold normalized_keys. apply map_ext. intros k.
  rewrite key_map_lookup. unfold translate_key.
  destruct (String.eqb (lower k) "control"); [reflexivity |].
  destruct (String.eqb (lower k) "command"); [reflexivity |].
  destruct (String.eqb (lower k) "meta"); reflexivity.
Qed.

(** C5: every key name is translated by looking its lowercase form up in the
    key map, names the map does not have staying as given.  One key gives one
    plain key press of its token; two or more keys give one hotkey press of
    the tokens joined by plus signs in the given order, and nothing else is
    sent to the keyboard.  So control, a gives the hotkey ctrl+a, and Enter
    gives the press Enter.  The lookup is of the lowercase form: Control,
    META and Command, however capitalised, give ctrl, cmd and cmd, while an
    unmapped name such as Enter or A keeps its capitals. *)
Theorem key_combination_presses (provider : provider_t) (keys : list string)
    (self : DaytonaComputer) (h : list event) (sb : Sandbox) :
  _sandbox self = Some sb ->
  normalized_keys keys = List.map translate_key keys
  /\ (forall k, keys = [k] ->
        List.filter is_key_event (events_of (key_combination provider keys self h))
        = [Call (keyboard_press sb (translate_key k))])
  /\ ((2 <= length keys)%nat ->
        List.filter is_key_event (events_of (key_combination provider keys self h))
        = [Call (keyboard_hotkey sb (join "+" (List.map translate_key keys)))])
  /\ join "+" (List.map translate_key ["control"; "a"]) = "ctrl+a"
  /\ translate_key "Enter" = "Enter"
  /\ lower "ABCDEFGHIJKLMNOPQRSTUVWXYZ [az] 09+" = "abcdefghijklmnopqrstuvwxyz [az] 09+"
  /\ normalized_keys ["Control"; "META"; "cOmMaNd"; "Enter"; "A"; "Ctrl"]
     = ["ctrl"; "cmd"; "cmd"; "Enter"; "A"; "Ctrl"]
  /\ (exists k, lower k <> k /\ translate_key k <> k /\ translate_key k = translate_key (lower k)).
Proof.
  intros Hsb. split; [apply normalized_keys_translate |].
  split; [| split; [| split; [reflexivity | split; [reflexivity |]]]];
    [| | split; [reflexivity | split; [reflexivity |]];
         exists "Control"; repeat split; discriminate].
  - intros k ->. unfold key_combination.
    rewrite normalized_keys_translate. cbn [List.map length Nat.eqb].
    open_monad. rewrite Hsb. tidy.
    destruct (provider h (keyboard_press sb (translate_key k))) as [e | v];
      [reflexivity |].
    tidy. capture_tail. cbn [List.filter is_key_event]. now rewrite Hkeys.
  - intros Hlen. unfold key_combination.
    rewrite normalized_keys_translate.
    assert (Hone : (length (List.map translate_key keys) =? 1)%nat = false).
    { rewrite length_map. apply Nat.eqb_neq. lia. }
    rewrite Hone.
    exact (proj1 (one_call_key_events provider
                    (fun sb => keyboard_hotkey sb (join "+" (List.map translate_key keys)))
                    "computer_use" SLEEP_ACTION self h sb Hsb eq_refl)).
Qed.

Lemma key_combination_presses_witness :
  _sandbox active = Some sandbox1
  /\ (2 <= length ["control"; "a"])%nat
  /\ List.filter is_key_event
       (events_of (key_combination (scripted never_fails "aGk=") ["control"; "a"] active []))
     = [Call (keyboard_hotkey sandbox1 "ctrl+a")]
  /\ List.filter is_key_event
       (events_of (key_combination (scripted never_fails "aGk=") ["Enter"] active []))
     = [Call (keyboard_press sandbox1 "Enter")]
  /\ List.filter is_key_event
       (events_of (key_combination (scripted never_fails "aGk=") ["Control"; "A"] active []))
     = [Call (keyboard_hotkey sandbox1 "ctrl+A")]
  /\ List.filter is_key_event
       (events_of (key_combination (scripted never_fails "aGk=") ["META"] active []))
     = [Call (keyboard_press sandbox1 "cmd")].
Proof.
  split; [reflexivity |]. split; [simpl; lia |]. split; [| split; [| split]].
  - pose proof (key_combination_presses (scripted never_fails "aGk=") ["control"; "a"]
                  active [] sandbox1 eq_refl) as (_ & _ & Hmany & _).
    apply Hmany. simpl. lia.
  - pose proof (key_combination_presses (scripted never_fails "aGk=") ["Enter"]
                  active [] sandbox1 eq_refl) as (_ & Hone & _).
    exact (Hone "Enter" eq_refl).
  - pose proof (key_combination_presses (scripted never_fails "aGk=") ["Control"; "A"]
                  active [] sandbox1 eq_refl) as (_ & _ & Hmany & _).
    apply Hmany. simpl. lia.
  - pose proof (key_combination_presses (scripted never_fails "aGk=") ["META"]
                  active [] sandbox1 eq_refl) as (_ & Hone & _).
    exact (Hone "META" eq_refl).
Defined.

(** ** Navigation *)

Lemma string_length_append (s1 s2 : string) :
  String.length (s1 +:+ s2) = (String.length s1 + String.length s2)%nat.
Proof.
  induction s1 as [| a s1 IH]; [reflexivity |].
  change (String.length (String a (s1 +:+ s2))
          = S (String.length s1 + String.length s2)).
  cbn [String.length]. now rewrite IH.
Qed.

Lemma prefix_cons (a : ascii) (s1 s2 : string) :
  String.prefix (String a s1) s2 = true ->
  exists s2', s2 = String a s2' /\ String.prefix s1 s2' = true.
Proof.
  destruct s2 as [| b s2']; simpl; [discriminate |].
  destruct (ascii_dec a b) as [-> |]; [eauto | discriminate].
Qed.

Ltac peel_prefix H :=
  repeat (apply prefix_cons in H; destruct H as (? & -> & H)).

(** The prefix test of [navigate] only accepts urls that do carry a scheme:
    whenever no scheme is present, the test fails and https is prepended. *)
Lemma startswith_http_scheme (url : string) :
  startswith url ["http://"; "https://"] = true -> scheme_present url = true.
Proof.
  unfold startswith. simpl. rewrite orb_false_r. intros Hstart.
  apply orb_prop in Hstart. destruct Hstart as [Hhttp | Hhttps].
  - peel_prefix Hhttp.
    match goal with rest : string |- _ => destruct rest end; reflexivity.
  - peel_prefix Hhttps.
    match goal with rest : string |- _ => destruct rest end; reflexivity.
Qed.

(** C3, as amended: [navigate] prepends https exactly when the url does not
    begin with the text http:// or https:// (so always when no scheme is
    present, and also for any other scheme); example.com becomes
    https://example.com and http://x.com is kept.  The tracked url is set to
    that form before the first SDK call: it is set in every outcome, also
    when the first key press raises. *)
Theorem navigate_normalizes (provider : provider_t) (url : string)
    (self : DaytonaComputer) (h : list event) :
  (normalized_url url = "https://" +:+ url
   <-> startswith url ["http://"; "https://"] = false)
  /\ (startswith url ["http://"; "https://"] = true -> normalized_url url = url)
  /\ (scheme_present url = false -> normalized_url url = "https://" +:+ url)
  /\ normalized_url "example.com" = "https://example.com"
  /\ normalized_url "http://x.com" = "http://x.com"
  /\ self_of (navigate provider url self h)
     = assign_current_url self (normalized_url url)
  /\ (forall sb e,
        _sandbox self = Some sb ->
        provider h (keyboard_press sb "f6") = inl e ->
        navigate provider url self h =
          (Raise e, assign_current_url self (normalized_url url),
           [Call (keyboard_press sb "f6")])).
Proof.
  assert (Hno : startswith url ["http://"; "https://"] = false ->
                normalized_url url = "https://" +:+ url).
  { intros Hstart. unfold normalized_url. now rewrite Hstart. }
  assert (Hyes : startswith url ["http://"; "https://"] = true ->
                 normalized_url url = url).
  { intros Hstart. unfold normalized_url. now rewrite Hstart. }
  repeat split.
  - intros Hpre. destruct (startswith url _) eqn:Hstart; [| reflexivity].
    rewrite (Hyes eq_refl) in Hpre.
    apply (f_equal String.length) in Hpre.
    rewrite string_length_append in Hpre. simpl in Hpre. lia.
  - exact Hno.
  - exact Hyes.
  - intros Hscheme. apply Hno.
    destruct (startswith url _) eqn:Hstart; [| reflexivity].
    apply startswith_http_scheme in Hstart. congruence.
  - apply navigate_self.
  - intros sb e Hsb Hf6. unfold navigate. open_monad. simpl. rewrite Hsb. tidy.
    now rewrite Hf6.
Qed.

Lemma navigate_normalizes_witness :
  scheme_present "example.com" = false
  /\ normalized_url "example.com" = "https://example.com"
  /\ _current_url (self_of (navigate (scripted never_fails "aGk=") "example.com" active []))
     = "https://example.com"
  /\ navigate (scripted f6_fails "aGk=") "example.com" active [] =
       (Raise (Exn DaytonaError "keyboard unavailable"),
        assign_current_url active "https://example.com",
        [Call (keyboard_press sandbox1 "f6")]).
Proof.
  pose proof (navigate_normalizes (scripted never_fails "aGk=") "example.com" active [])
    as (_ & _ & Hscheme & _ & _ & Hself & _).
  pose proof (navigate_normalizes (scripted f6_fails "aGk=") "example.com" active [])
    as (_ & _ & _ & _ & _ & _ & Hfirst).
  split; [reflexivity |]. split; [exact (Hscheme eq_refl) |].
  split; [rewrite Hself; reflexivity |].
  exact (Hfirst sandbox1 (Exn DaytonaError "keyboard unavailable") eq_refl eq_refl).
Defined.

(** C3, as stated, fails: ftp://example.com has a scheme, and [navigate]
    still prepends https to it. *)
Lemma navigate_prepends_despite_scheme :
  ~ (normalized_url "ftp://example.com" = "https://" +:+ "ftp://example.com"
     <-> scheme_present "ftp://example.com" = false).
Proof.
  intros [Hprepends _]. specialize (Hprepends eq_refl). discriminate.
Qed.

(** ** Session start and end *)

Section Session.

Variable environ : gmap string string.
Variable provider : provider_t.

(** All the ways [__enter__] can go, by the answers of its three calls. *)
Lemma enter_cases (self : DaytonaComputer) (h : list event) :
  let new := Daytona_new (default EmptyString (environ !! "DAYTONA_API_KEY")) in
  let params :=
    {| network_block_all := _network_block_all self;
       network_allow_list := _network_allow_list self;
       auto_stop_interval := _auto_stop_interval self |} in
  __enter__ environ provider self h =
    match provider h new with
    | inl e => (Raise e, self, [Call new])
    | inr d =>
        let create := Daytona_create d params in
        match provider (h ++ [Call new]) create with
        | inl e =>
            (Raise e, assign_daytona self (Some d),
             [Call new; Call create] ++ failure_line e)
        | inr sb =>
            let start := computer_use_start sb in
            let self2 := assign_sandbox (assign_daytona self (Some d)) (Some sb) in
            match provider (h ++ [Call new; Call create]) start with
            | inl e =>
                (Raise e, self2, [Call new; Call create; Call start] ++ failure_line e)
            | inr _ =>
                (Ok tt, self2,
                 [Call new; Call create; Call start;
                  Cprint ("Daytona sandbox started: " +:+ id sb) "green" true])
            end
        end
    end.
Proof.
  cbv zeta. unfold __enter__, failure_line. open_monad. simpl. tidy.
  destruct (provider h _) as [e | d]; [reflexivity |].
  tidy. destruct (provider (h ++ _) (Daytona_create _ _)) as [e | sb].
  - destruct (is_DaytonaError e); reflexivity.
  - tidy. destruct (provider (h ++ _) (computer_use_start _)) as [e | []].
    + destruct (is_DaytonaError e); reflexivity.
    + reflexivity.
Qed.

(** A start that returns has stored the handle of the sandbox it created. *)
Lemma enter_ok_handle (self self1 : DaytonaComputer) (h ev : list event) :
  __enter__ environ provider self h = (Ok tt, self1, ev) ->
  exists sb, _sandbox self1 = Some sb /\ In (Call (computer_use_start sb)) ev.
Proof.
  rewrite enter_cases. cbv zeta.
  destruct (provider h _) as [e | d]; [discriminate |].
  destruct (provider (h ++ _) (Daytona_create _ _)) as [e | sb]; [discriminate |].
  destruct (provider (h ++ _) (computer_use_start _)) as [e | []]; [discriminate |].
  intros Hrun. inversion Hrun; subst. exists sb. split; [reflexivity |].
  simpl. auto.
Qed.

Lemma failure_line_no_delete (e : exn) :
  List.filter is_delete (failure_line e) = [].
Proof. unfold failure_line. now destruct (is_DaytonaError e). Qed.

End Session.

(** C2, as amended: on an adapter without a session, when the create
    request raises, [__enter__] raises that same error, no handle is stored,
    and a later [__exit__] does nothing.  When the create request succeeds and the
    activation of computer use raises, [__enter__] raises that error too, but
    the handle of the created sandbox stays stored, no delete has been sent,
    and a later [__exit__] sends the delete for it. *)
Theorem enter_failure (environ : gmap string string) (provider : provider_t)
    (self : DaytonaComputer) (h : list event) (d : Daytona) (e : exn) :
  let new := Daytona_new (default EmptyString (environ !! "DAYTONA_API_KEY")) in
  let create :=
    Daytona_create d
      {| network_block_all := _network_block_all self;
         network_allow_list := _network_allow_list self;
         auto_stop_interval := _auto_stop_interval self |} in
  let o := __enter__ environ provider self h in
  _sandbox self = None ->
  provider h new = inr d ->
  (provider (h ++ [Call new]) create = inl e ->
     outcome_of o = Raise e
     /\ _sandbox (self_of o) = None
     /\ List.filter is_delete (events_of o) = []
     /\ forall h', __exit__ provider (self_of o) h' = (Ok tt, self_of o, []))
  /\ (forall sb : Sandbox,
        provider (h ++ [Call new]) create = inr sb ->
        provider (h ++ [Call new; Call create]) (computer_use_start sb) = inl e ->
        outcome_of o = Raise e
        /\ _sandbox (self_of o) = Some sb
        /\ List.filter is_delete (events_of o) = []
        /\ forall h',
             List.filter is_delete (events_of (__exit__ provider (self_of o) h'))
             = [Call (sandbox_delete sb)]).
Proof.
  intros new create o Hnone Hnew. subst o. rewrite enter_cases. cbv zeta.
  fold new. rewrite Hnew. fold create. split.
  - intros Hcreate. rewrite Hcreate. unfold outcome_of, self_of, events_of.
    cbn [fst snd]. rewrite List.filter_app, failure_line_no_delete.
    repeat split; try assumption.
    intros h'. now apply exit_without_handle.
  - intros sb Hcreate Hstart. rewrite Hcreate, Hstart.
    unfold outcome_of, self_of, events_of.
    cbn [fst snd]. rewrite List.filter_app, failure_line_no_delete.
    repeat split.
    intros h'.
    refine (proj2 (exit_calls provider _ h' sb _)). reflexivity.
Qed.

Lemma enter_failure_witness :
  (let o := __enter__ test_environ (scripted create_fails "aGk=") fresh [] in
   outcome_of o = Raise (Exn DaytonaError "quota exceeded")
   /\ _sandbox (self_of o) = None
   /\ __exit__ (scripted create_fails "aGk=") (self_of o) (events_of o)
      = (Ok tt, self_of o, []))
  /\ (let o := __enter__ test_environ (scripted start_fails "aGk=") fresh [] in
      outcome_of o = Raise (Exn DaytonaError "computer use unavailable")
      /\ _sandbox (self_of o) = Some sandbox1).
Proof.
  split.
  - destruct (enter_failure test_environ (scripted create_fails "aGk=") fresh []
                {| api_key := "key-123" |} (Exn DaytonaError "quota exceeded")
                eq_refl eq_refl) as [Hcreate _].
    destruct (Hcreate eq_refl) as (Hraise & Hnone & _ & Hexit).
    cbv zeta. split; [exact Hraise |]. split; [exact Hnone |]. apply Hexit.
  - destruct (enter_failure test_environ (scripted start_fails "aGk=") fresh []
                {| api_key := "key-123" |} (Exn DaytonaError "computer use unavailable")
                eq_refl eq_refl) as [_ Hstart].
    destruct (Hstart sandbox1 eq_refl eq_refl) as (Hraise & Hsome & _).
    cbv zeta. split; [exact Hraise | exact Hsome].
Defined.

(** C2, as stated, fails: when the activation step raises, the start has
    failed, yet the handle is stored and the next [__exit__] sends a delete. *)
Lemma enter_failure_keeps_handle :
  let provider := scripted start_fails "aGk=" in
  let o := __enter__ test_environ provider fresh [] in
  (exists e, outcome_of o = Raise e)
  /\ ~ (_sandbox (self_of o) = None
        /\ List.filter is_delete (events_of (__exit__ provider (self_of o) (events_of o))) = []).
Proof.
  cbv zeta. split.
  - eexists. vm_compute. reflexivity.
  - intros [Hnone _]. vm_compute in Hnone. discriminate.
Qed.

(** C7, as amended: [__exit__] returns normally when there is no handle,
    when the delete returns, and when the delete raises an instance of
    [Exception], whose failure is printed and dropped.  A delete that raises
    outside [Exception] (KeyboardInterrupt, SystemExit, GeneratorExit) is not
    caught: that error leaves [__exit__], unprinted.  So [__exit__] raises
    exactly in that last case. *)
Theorem exit_swallows_Exception (provider : provider_t) (self : DaytonaComputer)
    (h : list event) :
  (_sandbox self = None -> __exit__ provider self h = (Ok tt, self, []))
  /\ (forall sb,
        _sandbox self = Some sb ->
        (provider h (sandbox_delete sb) = inr tt ->
         __exit__ provider self h = (Ok tt, self, [Call (sandbox_delete sb)]))
        /\ (forall e,
              provider h (sandbox_delete sb) = inl e ->
              Exception e = true ->
              __exit__ provider self h =
                (Ok tt, self,
                 [Call (sandbox_delete sb);
                  Cprint ("Sandbox cleanup failed: " +:+ exn_str e) "red" false]))
        /\ (forall e,
              provider h (sandbox_delete sb) = inl e ->
              Exception e = false ->
              __exit__ provider self h = (Raise e, self, [Call (sandbox_delete sb)])))
  /\ ((exists e, outcome_of (__exit__ provider self h) = Raise e)
      <-> exists sb e,
            _sandbox self = Some sb
            /\ provider h (sandbox_delete sb) = inl e
            /\ Exception e = false).
Proof.
  split; [apply exit_without_handle |]. split.
  - intros sb Hsb. rewrite (exit_with_handle provider self h sb Hsb).
    unfold cleanup_line. split; [intros -> ; reflexivity |].
    split; intros e -> ->; reflexivity.
  - destruct (_sandbox self) as [sb |] eqn:Hsb.
    + rewrite (exit_with_handle provider self h sb Hsb).
      destruct (provider h (sandbox_delete sb)) as [e | []] eqn:Hdelete.
      * destruct (Exception e) eqn:Hcaught; split.
        -- intros [e' He']. discriminate.
        -- intros (sb' & e' & Hsb' & He' & Hpass).
           inversion Hsb'; subst sb'. rewrite Hdelete in He'.
           inversion He'; subst e'. congruence.
        -- intros _. exists sb, e. now auto.
        -- intros _. now exists e.
      * split; [intros [e He]; discriminate |].
        intros (sb' & e & Hsb' & He & _).
        inversion Hsb'; subst sb'. rewrite Hdelete in He. discriminate.
    + rewrite (exit_without_handle provider self h Hsb). split.
      * intros [e He]. discriminate.
      * intros (sb & e & Hsb' & _). discriminate.
Qed.

Lemma exit_swallows_Exception_witness :
  _sandbox active = Some sandbox1
  /\ (let e := Exn (OtherException "ConnectionError") "connection reset" in
      scripted delete_fails "aGk=" [] (sandbox_delete sandbox1) = inl e
      /\ Exception e = true
      /\ __exit__ (scripted delete_fails "aGk=") active [] =
           (Ok tt, active,
            [Call (sandbox_delete sandbox1);
             Cprint "Sandbox cleanup failed: connection reset" "red" false]))
  /\ (let e := Exn KeyboardInterrupt EmptyString in
      scripted delete_interrupted "aGk=" [] (sandbox_delete sandbox1) = inl e
      /\ Exception e = false
      /\ __exit__ (scripted delete_interrupted "aGk=") active [] =
           (Raise e, active, [Call (sandbox_delete sandbox1)])).
Proof.
  split; [reflexivity |]. cbv zeta. split.
  - split; [reflexivity |]. split; [reflexivity |].
    destruct (exit_swallows_Exception (scripted delete_fails "aGk=") active [])
      as (_ & Hhandle & _).
    destruct (Hhandle sandbox1 eq_refl) as (_ & Hcaught & _).
    exact (Hcaught _ eq_refl eq_refl).
  - split; [reflexivity |]. split; [reflexivity |].
    destruct (exit_swallows_Exception (scripted delete_interrupted "aGk=") active [])
      as (_ & Hhandle & _).
    destruct (Hhandle sandbox1 eq_refl) as (_ & _ & Hpass).
    exact (Hpass _ eq_refl eq_refl).
Defined.

(** C7, as stated, fails: a KeyboardInterrupt raised by the delete call is
    not an instance of [Exception], and [__exit__] raises it. *)
Lemma exit_raises_on_interrupt :
  scripted delete_interrupted "aGk=" [] (sandbox_delete sandbox1)
  = inl (Exn KeyboardInterrupt EmptyString)
  /\ ~ outcome_of (__exit__ (scripted delete_interrupted "aGk=") active []) = Ok tt.
Proof.
  split; [reflexivity |]. intros Hreturns. vm_compute in Hreturns. discriminate.
Qed.

(** C10: [__exit__] leaves every attribute of the adapter as it was, the
    session handle included; so after a successful start a first [__exit__]
    sends the delete, and a second [__exit__] sends the delete again. *)
Theorem exit_keeps_handle (environ : gmap string string) (provider : provider_t)
    (self0 self : DaytonaComputer) (h0 ev0 h : list event) :
  self_of (__exit__ provider self h) = self
  /\ (__enter__ environ provider self0 h0 = (Ok tt, self, ev0) ->
      exists sb,
        _sandbox self = Some sb
        /\ let first := __exit__ provider self h in
           let second := __exit__ provider (self_of first) (h ++ events_of first) in
           List.filter is_delete (events_of first) = [Call (sandbox_delete sb)]
           /\ _sandbox (self_of first) = Some sb
           /\ List.filter is_delete (events_of second) = [Call (sandbox_delete sb)]
           /\ _sandbox (self_of second) = Some sb).
Proof.
  split; [apply keeps_self_exit |].
  intros Henter.
  destruct (enter_ok_handle environ provider self0 self h0 ev0 Henter) as (sb & Hsb & _).
  exists sb. split; [exact Hsb |]. cbv zeta.
  rewrite !keeps_self_exit.
  split; [exact (proj2 (exit_calls provider self h sb Hsb)) |].
  split; [exact Hsb |].
  split; [| exact Hsb].
  exact (proj2 (exit_calls provider self _ sb Hsb)).
Qed.

Lemma exit_keeps_handle_witness :
  let provider := scripted never_fails "aGk=" in
  __enter__ test_environ provider fresh []
  = (Ok tt, active,
     events_of (__enter__ test_environ provider fresh []))
  /\ let first := __exit__ provider active [] in
     let second := __exit__ provider (self_of first) ([] ++ events_of first) in
     self_of first = active
     /\ events_of first = [Call (sandbox_delete sandbox1)]
     /\ events_of second = [Call (sandbox_delete sandbox1)].
Proof.
  cbv zeta. split; [reflexivity |].
  destruct (exit_keeps_handle test_environ (scripted never_fails "aGk=") fresh active
              [] (events_of (__enter__ test_environ (scripted never_fails "aGk=") fresh []))
              []) as [Hself Htwice].
  destruct (Htwice eq_refl) as (sb & Hsb & _).
  split; [exact Hself |]. split; reflexivity.
Defined.

(** ** Capturing the state *)

(** C8, as amended: with a session handle, [current_state] raises exactly
    when the capture call raises or its payload is not decodable base64, and
    the error raised is that same error.  It is printed first whenever it is
    an instance of [Exception], which a decoding error always is; an error of
    the capture outside [Exception] (KeyboardInterrupt, SystemExit,
    GeneratorExit) passes unprinted.  When the capture returns a decodable
    payload, the result is the decoded bytes together with the tracked url. *)
Theorem current_state_outcomes (provider : provider_t) (self : DaytonaComputer)
    (h : list event) (sb : Sandbox) :
  let capture := screenshot_take_compressed sb "png" true in
  let answer := provider (h ++ [Sleep SLEEP_SCREENSHOT]) capture in
  _sandbox self = Some sb ->
  ((exists e, outcome_of (current_state provider self h) = Raise e)
   <-> (exists e, answer = inl e)
       \/ (exists shot e, answer = inr shot /\ b64decode shot = inl e))
  /\ (forall e,
        answer = inl e /\ Exception e = true
        \/ (exists shot, answer = inr shot /\ b64decode shot = inl e) ->
        current_state provider self h =
          (Raise e, self,
           [Sleep SLEEP_SCREENSHOT; Call capture;
            Cprint ("Screenshot failed: " +:+ exn_str e) "red" false]))
  /\ (forall e,
        answer = inl e ->
        Exception e = false ->
        current_state provider self h =
          (Raise e, self, [Sleep SLEEP_SCREENSHOT; Call capture]))
  /\ (forall shot screenshot_bytes,
        answer = inr shot ->
        b64decode shot = inr screenshot_bytes ->
        current_state provider self h =
          (Ok {| screenshot := screenshot_bytes; url := _current_url self |}, self,
           [Sleep SLEEP_SCREENSHOT; Call capture])).
Proof.
  intros capture answer Hsb.
  rewrite (current_state_active provider self h sb Hsb). cbv zeta.
  fold capture. fold answer. unfold screenshot_line.
  split; [| split; [| split]].
  - destruct answer as [e | shot] eqn:Hanswer.
    + split; [eauto | intros _; eexists; reflexivity].
    + destruct (b64decode shot) as [e | bytes] eqn:Hdecode.
      * split; [intros _; right; eauto | intros _; eexists; reflexivity].
      * split.
        -- intros [e He]. discriminate.
        -- intros [[e He] | (shot' & e & Hshot & He)]; [discriminate |].
           inversion Hshot; subst. congruence.
  - intros e [[-> ->] | (shot & -> & ->)]; reflexivity.
  - intros e -> ->. reflexivity.
  - intros shot screenshot_bytes -> ->. reflexivity.
Qed.

Lemma current_state_outcomes_witness :
  _sandbox active = Some sandbox1
  /\ current_state (scripted capture_fails "aGk=") active [] =
       (Raise (Exn DaytonaError "capture timed out"), active,
        [Sleep SLEEP_SCREENSHOT;
         Call (screenshot_take_compressed sandbox1 "png" true);
         Cprint "Screenshot failed: capture timed out" "red" false])
  /\ current_state (scripted never_fails "QQ") active [] =
       (Raise (Exn BinasciiError "Incorrect padding"), active,
        [Sleep SLEEP_SCREENSHOT;
         Call (screenshot_take_compressed sandbox1 "png" true);
         Cprint "Screenshot failed: Incorrect padding" "red" false])
  /\ current_state (scripted capture_interrupted "aGk=") active [] =
       (Raise (Exn KeyboardInterrupt EmptyString), active,
        [Sleep SLEEP_SCREENSHOT;
         Call (screenshot_take_compressed sandbox1 "png" true)])
  /\ current_state (scripted never_fails "aGk=") active [] =
       (Ok {| screenshot := [Byte.x68; Byte.x69]; url := default_initial_url |},
        active,
        [Sleep SLEEP_SCREENSHOT;
         Call (screenshot_take_compressed sandbox1 "png" true)]).
Proof.
  split; [reflexivity |]. split; [| split; [| split]].
  - destruct (current_state_outcomes (scripted capture_fails "aGk=") active []
                sandbox1 eq_refl) as (_ & Hraise & _).
    exact (Hraise (Exn DaytonaError "capture timed out")
             (or_introl (conj eq_refl eq_refl))).
  - destruct (current_state_outcomes (scripted never_fails "QQ") active []
                sandbox1 eq_refl) as (_ & Hraise & _).
    exact (Hraise (Exn BinasciiError "Incorrect padding")
             (or_intror (ex_intro _ "QQ" (conj eq_refl eq_refl)))).
  - destruct (current_state_outcomes (scripted capture_interrupted "aGk=") active []
                sandbox1 eq_refl) as (_ & _ & Hpass & _).
    exact (Hpass (Exn KeyboardInterrupt EmptyString) eq_refl eq_refl).
  - destruct (current_state_outcomes (scripted never_fails "aGk=") active []
                sandbox1 eq_refl) as (_ & _ & _ & Hok).
    exact (Hok "aGk=" [Byte.x68; Byte.x69] eq_refl eq_refl).
Defined.

(** C8, as stated, fails: the capture call returns, but its payload is not
    base64 text, and [current_state] raises all the same. *)
Lemma current_state_raises_on_bad_payload :
  let provider := scripted never_fails "A" in
  let capture := screenshot_take_compressed sandbox1 "png" true in
  ~ ((exists e, outcome_of (current_state provider active []) = Raise e)
     <-> (exists e, provider ([] ++ [Sleep SLEEP_SCREENSHOT]) capture = inl e)).
Proof.
  cbv zeta. intros [Hraises _].
  destruct Hraises as [e He]; [| discriminate].
  eexists. vm_compute. reflexivity.
Qed.

(** ** The tracked url *)

(** When [open_web_browser] returns, it has assigned the initial url. *)
Lemma open_web_browser_ok (provider : provider_t) (self self1 : DaytonaComputer)
    (h ev : list event) (st : EnvState) :
  open_web_browser provider self h = (Ok st, self1, ev) ->
  _current_url self1 = _initial_url self.
Proof.
  unfold open_web_browser. open_monad.
  destruct (_sandbox self) as [sb |]; [| discriminate].
  tidy. destruct (provider h _) as [e | []]; [discriminate |].
  tidy.
  match goal with
  | |- context [current_state provider ?s ?hh] =>
      pose proof (current_state_self provider s hh) as Hself;
      unfold self_of in Hself;
      destruct (current_state provider s hh) as [[r self2] ev2]
  end.
  simpl in Hself. intros Hrun. inversion Hrun; subst. reflexivity.
Qed.

(** C6: [current_state] reports the tracked url.  After [navigate], or after
    an [open_web_browser] that returned, any further calls of methods other
    than [open_web_browser], [search] and [navigate] (go_back and go_forward
    among them), whatever they return or raise, leave it in place, so a later
    [current_state] still reports the url set then.  [go_back] and
    [go_forward] leave every attribute of the adapter unchanged, and the one
    key event each sends is the hotkey alt+left, respectively alt+right. *)
Theorem tracked_url_is_last_set (environ : gmap string string) (provider : provider_t)
    (self : DaytonaComputer) (h : list event) (acts : list action) :
  forallb (fun a => negb (sets_url a)) acts = true ->
  (forall hh st self' ev,
     current_state provider self hh = (Ok st, self', ev) ->
     url st = _current_url self /\ self' = self)
  /\ (forall u hh st self' ev,
        let o := navigate provider u self h in
        let later := run_calls environ provider acts (self_of o) (h ++ events_of o) in
        current_state provider (fst later) hh = (Ok st, self', ev) ->
        url st = normalized_url u)
  /\ (forall st0 self1 ev1 hh st self' ev,
        open_web_browser provider self h = (Ok st0, self1, ev1) ->
        let later := run_calls environ provider acts self1 (h ++ ev1) in
        current_state provider (fst later) hh = (Ok st, self', ev) ->
        url st = _initial_url self)
  /\ self_of (go_back provider self h) = self
  /\ self_of (go_forward provider self h) = self
  /\ (forall sb,
        _sandbox self = Some sb ->
        List.filter is_key_event (events_of (go_back provider self h))
        = [Call (keyboard_hotkey sb "alt+left")]
        /\ List.filter is_key_event (events_of (go_forward provider self h))
           = [Call (keyboard_hotkey sb "alt+right")]).
Proof.
  intros Hacts.
  assert (Hstate : forall s hh st self' ev,
            current_state provider s hh = (Ok st, self', ev) ->
            url st = _current_url s /\ self' = s).
  { intros s hh st self' ev Hrun. split.
    - exact (current_state_url provider s self' hh ev st Hrun).
    - pose proof (current_state_self provider s hh) as Hself.
      rewrite Hrun in Hself. exact Hself. }
  split; [apply Hstate |]. split; [| split; [| split; [| split]]].
  - intros u hh st self' ev o later Hrun.
    destruct (Hstate _ _ _ _ _ Hrun) as [-> _].
    subst later. rewrite (run_calls_keeps_url environ provider acts Hacts).
    subst o. now rewrite navigate_self.
  - intros st0 self1 ev1 hh st self' ev Hopen later Hrun.
    destruct (Hstate _ _ _ _ _ Hrun) as [-> _].
    subst later. rewrite (run_calls_keeps_url environ provider acts Hacts).
    exact (open_web_browser_ok provider self self1 h ev1 st0 Hopen).
  - apply keeps_self_go_back.
  - apply keeps_self_go_forward.
  - intros sb Hsb. split.
    + exact (proj1 (one_call_key_events provider (fun sb => keyboard_hotkey sb "alt+left")
                      "computer_use" SLEEP_NAVIGATION self h sb Hsb eq_refl)).
    + exact (proj1 (one_call_key_events provider (fun sb => keyboard_hotkey sb "alt+right")
                      "computer_use" SLEEP_NAVIGATION self h sb Hsb eq_refl)).
Qed.

Lemma tracked_url_is_last_set_witness :
  let provider := scripted never_fails "aGk=" in
  let acts := [GoBack; GoForward; ClickAt 10 20; KeyCombination ["control"; "a"]] in
  forallb (fun a => negb (sets_url a)) acts = true
  /\ (let o := navigate provider "example.com" active [] in
      let later := run_calls test_environ provider acts (self_of o) ([] ++ events_of o) in
      exists st,
        outcome_of (current_state provider (fst later) (snd later)) = Ok st
        /\ url st = "https://example.com")
  /\ (let o := open_web_browser provider (self_of (navigate provider "example.com" active [])) [] in
      let later := run_calls test_environ provider acts (self_of o) ([] ++ events_of o) in
      exists st,
        outcome_of (current_state provider (fst later) (snd later)) = Ok st
        /\ url st = default_initial_url)
  /\ List.filter is_key_event (events_of (go_back provider active []))
     = [Call (keyboard_hotkey sandbox1 "alt+left")].
Proof.
  cbv zeta. split; [reflexivity |].
  destruct (tracked_url_is_last_set test_environ (scripted never_fails "aGk=") active []
              [GoBack; GoForward; ClickAt 10 20; KeyCombination ["control"; "a"]]
              eq_refl) as (_ & Hnav & _ & _ & _ & Hkeys).
  destruct (tracked_url_is_last_set test_environ (scripted never_fails "aGk=")
              (self_of (navigate (scripted never_fails "aGk=") "example.com" active [])) []
              [GoBack; GoForward; ClickAt 10 20; KeyCombination ["control"; "a"]]
              eq_refl) as (_ & _ & Hopen & _).
  split; [| split].
  - match goal with
    | |- exists st, outcome_of (current_state ?p ?s ?hh) = Ok st /\ _ =>
        destruct (current_state p s hh) as [[[st' | e] self'] ev] eqn:Hrun
    end.
    + exists st'. split; [reflexivity |].
      exact (Hnav "example.com" _ st' self' ev Hrun).
    + vm_compute in Hrun. discriminate.
  - match goal with
    | |- exists st, outcome_of (current_state ?p ?s ?hh) = Ok st /\ _ =>
        destruct (current_state p s hh) as [[[st' | e] self'] ev] eqn:Hrun
    end.
    + exists st'. split; [reflexivity |].
      destruct (open_web_browser (scripted never_fails "aGk=")
                  (self_of (navigate (scripted never_fails "aGk=") "example.com" active []))
                  []) as [[[st0 | e0] self1] ev1] eqn:Hbrowser.
      * exact (Hopen st0 self1 ev1 _ st' self' ev eq_refl Hrun).
      * vm_compute in Hbrowser. discriminate.
    + vm_compute in Hrun. discriminate.
  - exact (proj1 (Hkeys sandbox1 eq_refl)).
Defined.

(** ** Further properties of url normalization and key translation *)

Lemma normalized_url_http (u : string) :
  startswith (normalized_url u) ["http://"; "https://"] = true.
Proof.
  unfold normalized_url.
  destruct (startswith u ["http://"; "https://"]) eqn:Hstart; [exact Hstart |].
  destruct u; reflexivity.
Qed.

(** X1: The url that [navigate] tracks and types always begins with http:// or
    https://, and normalizing is idempotent: navigating to an already
    normalized url tracks that same url. *)
Theorem normalized_url_idempotent (url : string) :
  startswith (normalized_url url) ["http://"; "https://"] = true
  /\ normalized_url (normalized_url url) = normalized_url url.
Proof.
  pose proof (normalized_url_http url) as Hstarts.
  split; [exact Hstarts |].
  unfold normalized_url at 1. now rewrite Hstarts.
Qed.

Lemma translate_key_idempotent (k : string) :
  translate_key (translate_key k) = translate_key k.
Proof.
  unfold translate_key at 2 3.
  destruct (String.eqb (lower k) "control") eqn:Hcontrol; [reflexivity |].
  destruct (String.eqb (lower k) "command") eqn:Hcommand; [reflexivity |].
  destruct (String.eqb (lower k) "meta") eqn:Hmeta; [reflexivity |].
  unfold translate_key. now rewrite Hcontrol, Hcommand, Hmeta.
Qed.

(** X2: Key translation keeps the number and order of the keys, maps every name
    either to itself or to one of the tokens ctrl and cmd, and is idempotent:
    the tokens it produces are not themselves names of the key map. *)
Theorem normalized_keys_idempotent (keys : list string) :
  length (normalized_keys keys) = length keys
  /\ normalized_keys (normalized_keys keys) = normalized_keys keys
  /\ Forall2 (fun k t => t = k \/ t = "ctrl" \/ t = "cmd") keys (normalized_keys keys).
Proof.
  rewrite !normalized_keys_translate. split; [apply length_map |]. split.
  - rewrite List.map_map. apply map_ext. apply translate_key_idempotent.
  - induction keys as [| k keys IH]; [constructor |].
    cbn [List.map]. constructor; [| exact IH].
    unfold translate_key.
    destruct (String.eqb (lower k) "control"); [now auto |].
    destruct (String.eqb (lower k) "command"); [now auto |].
    destruct (String.eqb (lower k) "meta"); now auto.
Qed.

(** X3: With no key at all [key_combination] does not fail on its own: it takes
    the hotkey branch and sends one hotkey call with the empty text. *)
Theorem key_combination_empty (provider : provider_t) (self : DaytonaComputer)
    (h : list event) (sb : Sandbox) :
  _sandbox self = Some sb ->
  List.filter is_key_event (events_of (key_combination provider [] self h))
  = [Call (keyboard_hotkey sb EmptyString)]
  /\ (forall e, provider h (keyboard_hotkey sb EmptyString) = inl e ->
        key_combination provider [] self h =
          (Raise e, self, [Call (keyboard_hotkey sb EmptyString)])).
Proof.
  intros Hsb. split.
  - exact (proj1 (one_call_key_events provider (fun sb => keyboard_hotkey sb EmptyString)
                    "computer_use" SLEEP_ACTION self h sb Hsb eq_refl)).
  - intros e Hfail. unfold key_combination.
    change (normalized_keys []) with (@nil string).
    change (join "+" []) with EmptyString. cbn [length Nat.eqb].
    open_monad. rewrite Hsb. tidy. now rewrite Hfail.
Qed.

Lemma key_combination_empty_witness :
  _sandbox active = Some sandbox1
  /\ List.filter is_key_event (events_of (key_combination all_succeed [] active []))
     = [Call (keyboard_hotkey sandbox1 EmptyString)].
Proof.
  split; [reflexivity |].
  exact (proj1 (key_combination_empty all_succeed active [] sandbox1 eq_refl)).
Defined.

(** ** Further properties of session start *)

(** X4: [__enter__] first builds the client, with the API key of the environment
    or the empty text when the variable is unset.  If building the client
    raises, the error leaves [__enter__] unprinted, even a DaytonaError (the
    call is outside the [try]), the object is untouched and no request for
    a sandbox has been made. *)
Theorem enter_client_failure (environ : gmap string string) (provider : provider_t)
    (self : DaytonaComputer) (h : list event) :
  let key := default EmptyString (environ !! "DAYTONA_API_KEY") in
  (environ !! "DAYTONA_API_KEY" = None -> key = EmptyString)
  /\ (exists rest, events_of (__enter__ environ provider self h)
                   = Call (Daytona_new key) :: rest)
  /\ (forall e,
        provider h (Daytona_new key) = inl e ->
        __enter__ environ provider self h = (Raise e, self, [Call (Daytona_new key)])).
Proof.
  intros key. split; [intros Hunset; subst key; now rewrite Hunset |].
  rewrite enter_cases. cbv zeta. fold key. split.
  - destruct (provider h (Daytona_new key)) as [e | d]; [eexists; reflexivity |].
    destruct (provider (h ++ _) (Daytona_create _ _)) as [e | sb]; [eexists; reflexivity |].
    destruct (provider (h ++ _) (computer_use_start _)); eexists; reflexivity.
  - intros e Hnew. now rewrite Hnew.
Qed.

Lemma enter_client_failure_witness :
  (∅ : gmap string string) !! "DAYTONA_API_KEY" = None
  /\ __enter__ ∅ (scripted new_fails "aGk=") fresh [] =
       (Raise (Exn DaytonaError "API key or JWT token is required"), fresh,
        [Call (Daytona_new EmptyString)]).
Proof.
  split; [reflexivity |].
  destruct (enter_client_failure ∅ (scripted new_fails "aGk=") fresh [])
    as (_ & _ & Hfail).
  exact (Hfail _ eq_refl).
Defined.

(** X5: Once the client is built, a failing [__enter__] prints the failure line
    exactly when the error is a DaytonaError; any other exception of the
    create or the activation request passes through without a printed line,
    and nothing else is ever printed on failure. *)
Theorem enter_prints_DaytonaError_only (environ : gmap string string)
    (provider : provider_t) (self self1 : DaytonaComputer) (h ev : list event)
    (d : Daytona) (e : exn) :
  provider h (Daytona_new (default EmptyString (environ !! "DAYTONA_API_KEY"))) = inr d ->
  __enter__ environ provider self h = (Raise e, self1, ev) ->
  List.filter is_cprint ev =
    if is_DaytonaError e
    then [Cprint ("Failed to create sandbox: " +:+ exn_str e) "red" false]
    else [].
Proof.
  intros Hnew. rewrite enter_cases. cbv zeta. rewrite Hnew.
  destruct (provider (h ++ _) (Daytona_create _ _)) as [e1 | sb].
  - intros Hrun. inversion Hrun; subst. unfold failure_line.
    destruct (is_DaytonaError e); reflexivity.
  - destruct (provider (h ++ _) (computer_use_start _)) as [e1 | []]; [| discriminate].
    intros Hrun. inversion Hrun; subst. unfold failure_line.
    destruct (is_DaytonaError e); reflexivity.
Qed.

Lemma enter_prints_DaytonaError_only_witness :
  (let run := __enter__ test_environ (scripted create_breaks "aGk=") fresh [] in
   outcome_of run = Raise (Exn (OtherException "ConnectionError") "network down")
   /\ List.filter is_cprint (events_of run) = [])
  /\ (let run := __enter__ test_environ (scripted create_fails "aGk=") fresh [] in
      List.filter is_cprint (events_of run)
      = [Cprint "Failed to create sandbox: quota exceeded" "red" false]).
Proof.
  split.
  - cbv zeta. split; [reflexivity |].
    exact (enter_prints_DaytonaError_only test_environ (scripted create_breaks "aGk=")
             fresh _ [] _ {| api_key := "key-123" |}
             (Exn (OtherException "ConnectionError") "network down") eq_refl eq_refl).
  - exact (enter_prints_DaytonaError_only test_environ (scripted create_fails "aGk=")
             fresh _ [] _ {| api_key := "key-123" |}
             (Exn DaytonaError "quota exceeded") eq_refl eq_refl).
Defined.

(** X6: A start that returns has made exactly three calls, in this order: the
    client with the key of the environment, the create request carrying the
    adapter's network flags and auto-stop interval, and the activation of
    computer use on the sandbox the create request returned.  That sandbox
    is the stored handle, the client is stored too, every other attribute is
    as before, and one line with the sandbox id has been printed. *)
Theorem enter_success (environ : gmap string string) (provider : provider_t)
    (self self1 : DaytonaComputer) (h ev : list event) :
  __enter__ environ provider self h = (Ok tt, self1, ev) ->
  let new := Daytona_new (default EmptyString (environ !! "DAYTONA_API_KEY")) in
  exists (d : Daytona) (sb : Sandbox),
    let create :=
      Daytona_create d
        {| network_block_all := _network_block_all self;
           network_allow_list := _network_allow_list self;
           auto_stop_interval := _auto_stop_interval self |} in
    provider h new = inr d
    /\ provider (h ++ [Call new]) create = inr sb
    /\ self1 = assign_sandbox (assign_daytona self (Some d)) (Some sb)
    /\ ev = [Call new; Call create; Call (computer_use_start sb);
             Cprint ("Daytona sandbox started: " +:+ id sb) "green" true].
Proof.
  rewrite enter_cases. cbv zeta.
  destruct (provider h _) as [e | d]; [discriminate |].
  destruct (provider (h ++ _) (Daytona_create _ _)) as [e | sb] eqn:Hcreate;
    [discriminate |].
  destruct (provider (h ++ _) (computer_use_start _)) as [e | []]; [discriminate |].
  intros Hrun. inversion Hrun; subst. exists d, sb. repeat split. exact Hcreate.
Qed.

Lemma enter_success_witness :
  __enter__ test_environ all_succeed fresh [] =
    (Ok tt, active,
     [Call (Daytona_new "key-123");
      Call (Daytona_create {| api_key := "key-123" |}
              {| network_block_all := false;
                 network_allow_list := Some "0.0.0.0/0";
                 auto_stop_interval := 30 |});
      Call (computer_use_start sandbox1);
      Cprint "Daytona sandbox started: sandbox-1" "green" true])
  /\ exists d sb, active = assign_sandbox (assign_daytona fresh (Some d)) (Some sb).
Proof.
  split; [reflexivity |].
  destruct (enter_success test_environ all_succeed fresh active [] _ eq_refl)
    as (d & sb & _ & _ & Hself & _).
  exists d, sb. exact Hself.
Defined.

(** X7: [__enter__] never sends a delete.  A start on an adapter that already
    holds a handle therefore leaves the earlier sandbox undeleted, and when
    it returns, the stored handle is the new sandbox: the earlier one is out
    of the adapter's reach, and [__exit__] deletes the new one only. *)
Theorem enter_never_deletes (environ : gmap string string) (provider : provider_t)
    (self : DaytonaComputer) (h : list event) :
  List.filter is_delete (events_of (__enter__ environ provider self h)) = []
  /\ (forall self1 ev,
        __enter__ environ provider self h = (Ok tt, self1, ev) ->
        exists sb,
          In (Call (computer_use_start sb)) ev
          /\ _sandbox self1 = Some sb
          /\ forall h',
               List.filter is_call (events_of (__exit__ provider self1 h'))
               = [Call (sandbox_delete sb)]).
Proof.
  split.
  - rewrite enter_cases. cbv zeta.
    destruct (provider h _) as [e | d]; [reflexivity |].
    destruct (provider (h ++ _) (Daytona_create _ _)) as [e | sb].
    + unfold events_of. cbn [snd]. now rewrite List.filter_app, failure_line_no_delete.
    + destruct (provider (h ++ _) (computer_use_start _)) as [e | []]; [| reflexivity].
      unfold events_of. cbn [snd]. now rewrite List.filter_app, failure_line_no_delete.
  - intros self1 ev Hrun.
    destruct (enter_ok_handle environ provider self self1 h ev Hrun) as (sb & Hsb & Hin).
    exists sb. split; [exact Hin |]. split; [exact Hsb |].
    intros h'. exact (proj1 (exit_calls provider self1 h' sb Hsb)).
Qed.

Lemma enter_never_deletes_witness :
  let second := __enter__ test_environ all_succeed active [] in
  _sandbox active = Some sandbox1
  /\ outcome_of second = Ok tt
  /\ List.filter is_delete (events_of second) = []
  /\ List.filter is_call (events_of (__exit__ all_succeed (self_of second) (events_of second)))
     = [Call (sandbox_delete sandbox1)].
Proof.
  cbv zeta.
  destruct (enter_never_deletes test_environ all_succeed active []) as [Hnone Hnew].
  split; [reflexivity |]. split; [reflexivity |]. split; [exact Hnone |].
  destruct (Hnew active (events_of (__enter__ test_environ all_succeed active [])) eq_refl)
    as (sb & _ & Hsb & Hexit).
  inversion Hsb; subst sb. apply Hexit.
Defined.

(** ** Further properties of the action methods *)

(** Answer the next SDK call of a run that is known to return: the raising
    answer contradicts the hypothesis being introduced. *)
Ltac call_returned Hsb :=
  match goal with
  | |- context [match ?p ?h ?c with inl _ => _ | inr _ => _ end] =>
      destruct (p h c) as [? | ?]; [intros; discriminate |];
      tidy; rewrite ?Hsb; tidy
  end.

(** The closing [current_state] of a run that is known to return. *)
Ltac capture_returned sb Hsb :=
  rewrite current_state_active with (sb := sb) by (simpl; exact Hsb);
  cbv zeta;
  match goal with
  | |- context [match ?p ?h ?c with inl _ => _ | inr _ => _ end] =>
      destruct (p h c) as [? | ?]; [intros; discriminate |]
  end;
  match goal with
  | |- context [b64decode ?shot] =>
      destruct (b64decode shot); [intros; discriminate |]
  end.

(** X8: When [navigate] returns, it has sent, in this order and with these
    delays, the F6 key, the normalized url as typed text (with no per-key
    delay argument), and the Enter key, and then captured the state; the text
    it typed is the url it tracks and reports. *)
Theorem navigate_success (provider : provider_t) (u : string)
    (self self1 : DaytonaComputer) (h ev : list event) (st : EnvState) (sb : Sandbox) :
  _sandbox self = Some sb ->
  navigate provider u self h = (Ok st, self1, ev) ->
  ev = [Call (keyboard_press sb "f6"); Sleep SLEEP_ACTION;
        Call (keyboard_type sb (normalized_url u) None); Sleep SLEEP_ACTION;
        Call (keyboard_press sb "enter"); Sleep SLEEP_NAVIGATION;
        Sleep SLEEP_SCREENSHOT;
        Call (screenshot_take_compressed sb "png" true)]
  /\ url st = normalized_url u
  /\ self1 = assign_current_url self (normalized_url u).
Proof.
  intros Hsb. unfold navigate. open_monad. simpl. rewrite Hsb. tidy.
  do 3 call_returned Hsb.
  capture_returned sb Hsb.
  intros Hrun. inversion Hrun; subst. repeat split.
Qed.

Lemma navigate_success_witness :
  _sandbox active = Some sandbox1
  /\ events_of (navigate all_succeed "example.com" active []) =
       [Call (keyboard_press sandbox1 "f6"); Sleep SLEEP_ACTION;
        Call (keyboard_type sandbox1 "https://example.com" None); Sleep SLEEP_ACTION;
        Call (keyboard_press sandbox1 "enter"); Sleep SLEEP_NAVIGATION;
        Sleep SLEEP_SCREENSHOT;
        Call (screenshot_take_compressed sandbox1 "png" true)].
Proof.
  split; [reflexivity |].
  destruct (navigate all_succeed "example.com" active [])
    as [[[st | e] self1] ev] eqn:Hrun.
  - exact (proj1 (navigate_success all_succeed "example.com" active self1 [] ev st
                    sandbox1 eq_refl Hrun)).
  - vm_compute in Hrun. discriminate.
Defined.

(** X9: When [type_text_at] returns, it has clicked at the point with the left
    button, selected all with ctrl+a only if asked to clear, typed the text
    with a per-key delay of 50, and then either pressed Enter and waited the
    navigation delay, or waited the action delay; the capture comes last. *)
Theorem type_text_at_success (provider : provider_t) (x y : Z) (text : string)
    (press_enter clear_before_typing : bool)
    (self self1 : DaytonaComputer) (h ev : list event) (st : EnvState) (sb : Sandbox) :
  _sandbox self = Some sb ->
  type_text_at provider x y text press_enter clear_before_typing self h
  = (Ok st, self1, ev) ->
  ev = [Call (mouse_click sb x y (Some "left")); Sleep SLEEP_ACTION]
       ++ (if clear_before_typing
           then [Call (keyboard_press sb "ctrl+a"); Sleep SLEEP_ACTION] else [])
       ++ [Call (keyboard_type sb text (Some 50))]
       ++ (if press_enter
           then [Call (keyboard_press sb "enter"); Sleep SLEEP_NAVIGATION]
           else [Sleep SLEEP_ACTION])
       ++ [Sleep SLEEP_SCREENSHOT;
           Call (screenshot_take_compressed sb "png" true)]
  /\ self1 = self.
Proof.
  intros Hsb. unfold type_text_at. open_monad. rewrite Hsb. tidy.
  call_returned Hsb.
  destruct clear_before_typing, press_enter; tidy; rewrite ?Hsb; tidy;
    repeat call_returned Hsb;
    capture_returned sb Hsb;
    intros Hrun; inversion Hrun; subst; split; reflexivity.
Qed.

Lemma type_text_at_success_witness :
  _sandbox active = Some sandbox1
  /\ events_of (type_text_at all_succeed 5 6 "hello" false false active []) =
       [Call (mouse_click sandbox1 5 6 (Some "left")); Sleep SLEEP_ACTION;
        Call (keyboard_type sandbox1 "hello" (Some 50)); Sleep SLEEP_ACTION;
        Sleep SLEEP_SCREENSHOT;
        Call (screenshot_take_compressed sandbox1 "png" true)].
Proof.
  split; [reflexivity |].
  destruct (type_text_at all_succeed 5 6 "hello" false false active [])
    as [[[st | e] self1] ev] eqn:Hrun.
  - exact (proj1 (type_text_at_success all_succeed 5 6 "hello" false false active self1
                    [] ev st sandbox1 eq_refl Hrun)).
  - vm_compute in Hrun. discriminate.
Defined.

(** X10: [open_web_browser] assigns the tracked url only after its shell command
    has been accepted.  The command is the xdg-open line with the initial url
    in double quotes and a timeout of 1.  If the command raises, the tracked
    url and every other attribute stay as they were and nothing else is sent;
    if it returns, the tracked url is the initial url in every outcome, also
    when the capture that follows raises. *)
Theorem open_web_browser_tracking (provider : provider_t) (self : DaytonaComputer)
    (h : list event) (sb : Sandbox) :
  let exec := process_exec sb (xdg_open_command (_initial_url self)) 1 in
  _sandbox self = Some sb ->
  (forall e,
     provider h exec = inl e ->
     open_web_browser provider self h = (Raise e, self, [Call exec]))
  /\ (provider h exec = inr tt ->
      self_of (open_web_browser provider self h)
      = assign_current_url self (_initial_url self)
      /\ exists tail,
           events_of (open_web_browser provider self h)
           = Call exec :: Sleep SLEEP_NAVIGATION :: tail
           /\ forallb is_capture tail = true).
Proof.
  intros exec Hsb. split.
  - intros e Hexec. unfold open_web_browser. open_monad. rewrite Hsb. tidy.
    fold (xdg_open_command (_initial_url self)). fold exec. now rewrite Hexec.
  - intros Hexec. unfold open_web_browser. open_monad. rewrite Hsb. tidy.
    fold (xdg_open_command (_initial_url self)). fold exec. rewrite Hexec. tidy.
    match goal with
    | |- context [current_state provider ?s ?hh] =>
        pose proof (current_state_self provider s hh) as Hself;
        pose proof (current_state_events provider s hh) as Hcap;
        unfold self_of, events_of in Hself, Hcap;
        destruct (current_state provider s hh) as [[r self2] ev2]
    end.
    cbn [fst snd] in *. split; [exact Hself |].
    exists ev2. split; [reflexivity | exact Hcap].
Qed.

Lemma open_web_browser_tracking_witness :
  _sandbox active = Some sandbox1
  /\ open_web_browser (scripted exec_fails "aGk=")
       (assign_current_url active "https://example.com") [] =
       (Raise (Exn DaytonaError "exec timed out"),
        assign_current_url active "https://example.com",
        [Call (process_exec sandbox1 (xdg_open_command default_initial_url) 1)])
  /\ _current_url (self_of (open_web_browser (scripted capture_fails "aGk=")
                              (assign_current_url active "https://example.com") []))
     = default_initial_url.
Proof.
  split; [reflexivity |]. split.
  - destruct (open_web_browser_tracking (scripted exec_fails "aGk=")
                (assign_current_url active "https://example.com") [] sandbox1 eq_refl)
      as [Hfail _].
    exact (Hfail _ eq_refl).
  - destruct (open_web_browser_tracking (scripted capture_fails "aGk=")
                (assign_current_url active "https://example.com") [] sandbox1 eq_refl)
      as [_ Hok].
    destruct (Hok eq_refl) as [Hself _]. now rewrite Hself.
Defined.

Lemma supported_cases (direction : string) :
  supported_direction direction = true ->
  direction = "up" \/ direction = "down" \/ direction = "left" \/ direction = "right".
Proof.
  unfold supported_direction. simpl. rewrite orb_false_r.
  rewrite !orb_true_iff, !String.eqb_eq. tauto.
Qed.

(** X11: For a supported direction, once its focusing click has been accepted,
    [scroll_at] sends exactly one key event: PageDown for down, PageUp for
    up, Space for right and the hotkey shift+space for left.  The click, with
    no button argument, is its only mouse event. *)
Theorem scroll_at_keys (provider : provider_t) (x y : Z) (direction : string)
    (magnitude : Z) (self : DaytonaComputer) (h : list event) (sb : Sandbox) :
  supported_direction direction = true ->
  _sandbox self = Some sb ->
  provider h (mouse_click sb x y None) = inr tt ->
  let run := scroll_at provider x y direction magnitude self h in
  List.filter is_mouse_click (events_of run) = [Call (mouse_click sb x y None)]
  /\ List.filter is_key_event (events_of run) = [Call (scroll_key sb direction)].
Proof.
  intros Hd Hsb Hclick run. subst run.
  unfold scroll_at. open_monad. rewrite Hsb. tidy. rewrite Hclick. tidy.
  destruct (supported_cases direction Hd) as [-> | [-> | [-> | ->]]];
    cbn [String.eqb Ascii.eqb Bool.eqb]; rewrite Hsb; tidy;
    (match goal with
     | |- context [match ?p ?hh ?c with inl _ => _ | inr _ => _ end] =>
         destruct (p hh c)
     end; [split; reflexivity |]);
    tidy; capture_tail; cbn [List.filter is_key_event is_mouse_click];
    rewrite Hkeys, Hclicks; split; reflexivity.
Qed.

Lemma scroll_at_keys_witness :
  supported_direction "left" = true
  /\ _sandbox active = Some sandbox1
  /\ all_succeed [] (mouse_click sandbox1 3 4 None) = inr tt
  /\ List.filter is_key_event (events_of (scroll_at all_succeed 3 4 "left" 800 active []))
     = [Call (keyboard_hotkey sandbox1 "shift+space")].
Proof.
  split; [reflexivity |]. split; [reflexivity |]. split; [reflexivity |].
  exact (proj2 (scroll_at_keys all_succeed 3 4 "left" 800 active [] sandbox1
                  eq_refl eq_refl eq_refl)).
Defined.

(** X12: [click_at], [hover_at] and [drag_and_drop] each send one mouse call,
    first of all: a click with the left button at the point, a move to the
    point, a drag from the point to the destination.  What follows is only
    the delay and the capture, so none of them sends a key event, and the
    last two send no click. *)
Theorem pointer_methods (provider : provider_t) (x y destination_x destination_y : Z)
    (self : DaytonaComputer) (h : list event) (sb : Sandbox) :
  _sandbox self = Some sb ->
  (exists tail,
     events_of (click_at provider x y self h)
     = Call (mouse_click sb x y (Some "left")) :: tail
     /\ forallb is_capture tail = true)
  /\ (exists tail,
        events_of (hover_at provider x y self h) = Call (mouse_move sb x y) :: tail
        /\ forallb is_capture tail = true)
  /\ (exists tail,
        events_of (drag_and_drop provider x y destination_x destination_y self h)
        = Call (mouse_drag sb x y destination_x destination_y) :: tail
        /\ forallb is_capture tail = true).
Proof.
  intros Hsb. split; [| split].
  - exact (one_call_then_capture provider (fun sb => mouse_click sb x y (Some "left"))
             "computer_use" SLEEP_ACTION self h sb Hsb).
  - exact (one_call_then_capture provider (fun sb => mouse_move sb x y)
             "computer_use" SLEEP_ACTION self h sb Hsb).
  - exact (one_call_then_capture provider
             (fun sb => mouse_drag sb x y destination_x destination_y)
             "computer_use" SLEEP_ACTION self h sb Hsb).
Qed.

Lemma pointer_methods_witness :
  _sandbox active = Some sandbox1
  /\ exists tail,
       events_of (drag_and_drop all_succeed 1 2 30 40 active [])
       = Call (mouse_drag sandbox1 1 2 30 40) :: tail
       /\ forallb is_capture tail = true.
Proof.
  split; [reflexivity |].
  exact (proj2 (proj2 (pointer_methods all_succeed 1 2 30 40 active [] sandbox1 eq_refl))).
Defined.

(** ** Calling the adapter without a session *)

Lemma discard_events {A} (m : M A) (self : DaytonaComputer) (h : list event) :
  events_of (discard m self h) = events_of (m self h).
Proof.
  unfold discard, bind, ret, events_of.
  destruct (m self h) as [[[a | e] self1] ev]; simpl; [apply app_nil_r | reflexivity].
Qed.

Lemma call_method_events (environ : gmap string string) (provider : provider_t)
    (a : action) (m : M EnvState) (self : DaytonaComputer) (h : list event) :
  env_method provider a = Some m ->
  events_of (call_method environ provider a self h) = events_of (m self h).
Proof.
  destruct a; simpl; intros Hm; inversion Hm; subst; apply discard_events.
Qed.

(** What an action method does on an adapter that holds no handle. *)
Lemma env_method_without_session (provider : provider_t) (a : action)
    (m : M EnvState) (self : DaytonaComputer) (h : list event) :
  _sandbox self = None ->
  env_method provider a = Some m ->
  List.filter is_call (events_of (m self h)) = []
  /\ exists e,
       outcome_of (m self h) = Raise e
       /\ (exn_cls e = AttributeError
           \/ exn_cls e = ValueError
              /\ exists direction,
                   a = ScrollDocument direction
                   /\ supported_direction direction = false).
Proof.
  intros Hnone Hm.
  destruct a; simpl in Hm; inversion Hm; subst; clear Hm.
  - (* open_web_browser *)
    unfold open_web_browser. open_monad. rewrite Hnone. simpl. split; [reflexivity | eexists; split; [reflexivity | left; reflexivity]].
  - (* click_at *)
    unfold click_at. open_monad. rewrite Hnone. simpl. split; [reflexivity | eexists; split; [reflexivity | left; reflexivity]].
  - (* hover_at *)
    unfold hover_at. open_monad. rewrite Hnone. simpl. split; [reflexivity | eexists; split; [reflexivity | left; reflexivity]].
  - (* type_text_at *)
    unfold type_text_at. open_monad. rewrite Hnone. simpl. split; [reflexivity | eexists; split; [reflexivity | left; reflexivity]].
  - (* scroll_document *)
    unfold scroll_document.
    destruct (String.eqb direction "down") eqn:Hdown;
      [open_monad; rewrite Hnone; simpl; split; [reflexivity | eexists; split; [reflexivity | left; reflexivity]] |].
    destruct (String.eqb direction "up") eqn:Hup;
      [open_monad; rewrite Hnone; simpl; split; [reflexivity | eexists; split; [reflexivity | left; reflexivity]] |].
    destruct (existsb (String.eqb direction) ["left"; "right"]) eqn:Hside.
    + unfold scroll_at. open_monad. rewrite Hnone. simpl. split; [reflexivity | eexists; split; [reflexivity | left; reflexivity]].
    + open_monad. simpl. split; [reflexivity |].
      eexists. split; [reflexivity |]. right. split; [reflexivity |].
      exists direction. split; [reflexivity |].
      simpl in Hside. rewrite orb_false_r in Hside.
      apply orb_false_iff in Hside. destruct Hside as [Hleft Hright].
      unfold supported_direction. simpl. now rewrite Hup, Hdown, Hleft, Hright.
  - (* scroll_at *)
    unfold scroll_at. open_monad. rewrite Hnone. simpl. split; [reflexivity | eexists; split; [reflexivity | left; reflexivity]].
  - (* wait_5_seconds *)
    assert (Hrun : wait_5_seconds provider self h =
              (Raise (NoneType_has_no_attribute "computer_use"), self,
               [Sleep (Qmake 5 1); Sleep SLEEP_SCREENSHOT;
                Cprint ("Screenshot failed: "
                          +:+ exn_str (NoneType_has_no_attribute "computer_use"))
                  "red" false])).
    { unfold wait_5_seconds, bind, sleep, emit.
      now rewrite (current_state_inactive provider self _ Hnone). }
    rewrite Hrun. split; [reflexivity | eexists; split; [reflexivity | left; reflexivity]].
  - (* go_back *)
    unfold go_back. open_monad. rewrite Hnone. simpl. split; [reflexivity | eexists; split; [reflexivity | left; reflexivity]].
  - (* go_forward *)
    unfold go_forward. open_monad. rewrite Hnone. simpl. split; [reflexivity | eexists; split; [reflexivity | left; reflexivity]].
  - (* search *)
    unfold search, navigate. open_monad. simpl. rewrite Hnone. simpl.
    split; [reflexivity | eexists; split; [reflexivity | left; reflexivity]].
  - (* navigate *)
    unfold navigate. open_monad. simpl. rewrite Hnone. simpl. split; [reflexivity | eexists; split; [reflexivity | left; reflexivity]].
  - (* key_combination *)
    unfold key_combination.
    destruct (length (normalized_keys keys) =? 1)%nat;
      open_monad; rewrite Hnone; simpl; (split; [reflexivity | eexists; split; [reflexivity | left; reflexivity]]).
  - (* drag_and_drop *)
    unfold drag_and_drop. open_monad. rewrite Hnone. simpl. split; [reflexivity | eexists; split; [reflexivity | left; reflexivity]].
  - (* current_state *)
    rewrite (current_state_inactive provider self h Hnone). cbv zeta.
    unfold outcome_of, events_of. simpl. split; [reflexivity | eexists; split; [reflexivity | left; reflexivity]].
Qed.

(** X13: On an adapter that holds no session handle, no method other than
    [__enter__] makes any SDK call.  [__exit__] and [screen_size] return;
    every action method raises AttributeError when it reaches for the
    handle, except that [scroll_document] with an unsupported direction
    raises its ValueError first. *)
Theorem no_session_no_calls (environ : gmap string string) (provider : provider_t)
    (a : action) (self : DaytonaComputer) (h : list event) :
  _sandbox self = None ->
  a <> Enter ->
  List.filter is_call (events_of (call_method environ provider a self h)) = []
  /\ (a = Exit \/ a = ScreenSize ->
      outcome_of (call_method environ provider a self h) = Ok tt)
  /\ (forall m,
        env_method provider a = Some m ->
        exists e,
          outcome_of (m self h) = Raise e
          /\ (exn_cls e = AttributeError
              \/ exn_cls e = ValueError
                 /\ exists direction,
                      a = ScrollDocument direction
                      /\ supported_direction direction = false)).
Proof.
  intros Hnone Henter. split; [| split].
  - destruct (env_method provider a) as [m |] eqn:Hm.
    + rewrite (call_method_events environ provider a m self h Hm).
      exact (proj1 (env_method_without_session provider a m self h Hnone Hm)).
    + destruct a; try discriminate; [contradiction | |].
      * simpl. now rewrite (exit_without_handle provider self h Hnone).
      * reflexivity.
  - intros [-> | ->]; simpl.
    + now rewrite (exit_without_handle provider self h Hnone).
    + reflexivity.
  - intros m Hm.
    exact (proj2 (env_method_without_session provider a m self h Hnone Hm)).
Qed.

Lemma no_session_no_calls_witness :
  _sandbox fresh = None
  /\ ClickAt 1 2 <> Enter
  /\ click_at all_succeed 1 2 fresh [] =
       (Raise (NoneType_has_no_attribute "computer_use"), fresh, [])
  /\ List.filter is_call
       (events_of (call_method test_environ all_succeed Wait5Seconds fresh [])) = [].
Proof.
  assert (Hclick : ClickAt 1 2 <> Enter) by discriminate.
  assert (Hwait : Wait5Seconds <> Enter) by discriminate.
  split; [reflexivity |]. split; [exact Hclick |]. split; [reflexivity |].
  exact (proj1 (no_session_no_calls test_environ all_succeed Wait5Seconds fresh []
                  eq_refl Hwait)).
Defined.

(** ** No call after a failed call *)

Lemma quiet_stops (provider : provider_t) (evs h : list event) :
  List.filter is_call evs = [] -> stops_at_failure provider h evs.
Proof.
  revert h. induction evs as [| ev rest IH]; intros h Hquiet; [exact I |].
  destruct ev as [c | d | text color bold]; simpl in Hquiet; try discriminate;
    (split; [discriminate | now apply IH]).
Qed.

Lemma quiet_no_failure (provider : provider_t) (evs h : list event) :
  List.filter is_call evs = [] -> some_call_failed provider h evs = false.
Proof.
  revert h. induction evs as [| ev rest IH]; intros h Hquiet; [reflexivity |].
  destruct ev as [c | d | text color bold]; simpl in Hquiet; try discriminate;
    simpl; now apply IH.
Qed.

Lemma some_call_failed_app (provider : provider_t) (e1 e2 h : list event) :
  some_call_failed provider h (e1 ++ e2)
  = some_call_failed provider h e1 || some_call_failed provider (h ++ e1) e2.
Proof.
  revert h. induction e1 as [| ev rest IH]; intros h.
  - simpl. now rewrite app_nil_r.
  - simpl. rewrite IH, <- app_assoc. simpl. now rewrite orb_assoc.
Qed.

Lemma stops_at_failure_app (provider : provider_t) (e1 e2 h : list event) :
  stops_at_failure provider h e1 ->
  (some_call_failed provider h e1 = true -> List.filter is_call e2 = []) ->
  (some_call_failed provider h e1 = false -> stops_at_failure provider (h ++ e1) e2) ->
  stops_at_failure provider h (e1 ++ e2).
Proof.
  revert h. induction e1 as [| ev rest IH]; intros h Hstops Hfailed Hclean.
  - simpl in *. rewrite app_nil_r in Hclean. now apply Hclean.
  - simpl in Hstops, Hfailed, Hclean. destruct Hstops as [Hhere Hrest].
    cbn [app stops_at_failure]. split.
    + intros Hev. rewrite List.filter_app, (Hhere Hev), Hfailed; [reflexivity |].
      now rewrite Hev.
    + apply IH; [exact Hrest | |].
      * intros Hlater. apply Hfailed. rewrite Hlater. apply orb_true_r.
      * intros Hlater. destruct (call_failed provider h ev) eqn:Hev.
        -- apply quiet_stops. now apply Hfailed.
        -- rewrite <- app_assoc. apply Hclean. now rewrite Hlater.
Qed.

Section FailFast.

Variable provider : provider_t.

Lemma fail_fast_silent {A} (m : M A) : silent m -> fail_fast provider m.
Proof.
  intros Hsilent self h. specialize (Hsilent self h). split.
  - now apply quiet_stops.
  - intros _. now apply quiet_no_failure.
Qed.

Lemma silent_ret {A} (a : A) : silent (ret a).
Proof. intros self h. reflexivity. Qed.

Lemma silent_raise {A} (e : exn) : silent (@raise A e).
Proof. intros self h. reflexivity. Qed.

Lemma silent_get : silent get_self.
Proof. intros self h. reflexivity. Qed.

Lemma silent_sleep (d : Q) : silent (sleep d).
Proof. intros self h. reflexivity. Qed.

Lemma silent_cprint (text color : string) (bold : bool) :
  silent (cprint text color bold).
Proof. intros self h. reflexivity. Qed.

Lemma silent_set_daytona (d : option Daytona) : silent (set_daytona d).
Proof. intros self h. reflexivity. Qed.

Lemma silent_set_sandbox (sb : option Sandbox) : silent (set_sandbox sb).
Proof. intros self h. reflexivity. Qed.

Lemma silent_set_current_url (u : string) : silent (set_current_url u).
Proof. intros self h. reflexivity. Qed.

Lemma silent_lift {A} (r : exn + A) : silent (lift_sum r).
Proof. intros self h. now destruct r. Qed.

Lemma silent_item0 (l : list string) : silent (item0 l).
Proof. intros self h. now destruct l. Qed.

Lemma silent_sandbox (attr : string) : silent (self_sandbox attr).
Proof. intros self h. unfold self_sandbox. open_monad. now destruct (_sandbox self). Qed.

Lemma silent_daytona (attr : string) : silent (self_daytona attr).
Proof. intros self h. unfold self_daytona. open_monad. now destruct (_daytona self). Qed.

(** The [except] bodies of the module that print and raise again. *)
Lemma silent_print_raise {A} (text color : string) (bold : bool) (e : exn) :
  silent (cprint text color bold ;; @raise A e).
Proof. intros self h. reflexivity. Qed.

Lemma always_raises_print_raise {A} (text color : string) (bold : bool) (e : exn) :
  always_raises (cprint text color bold ;; @raise A e).
Proof. intros self h. now exists e. Qed.

Lemma fail_fast_sdk (c : call) : fail_fast provider (sdk provider c).
Proof.
  intros self h. unfold sdk, events_of, outcome_of.
  destruct (provider h c) as [e | v] eqn:Hcall; simpl; rewrite Hcall.
  - split; [now split | intros [a Ha]; discriminate].
  - split; [split; [discriminate | exact I] | reflexivity].
Qed.

Lemma fail_fast_bind {A B} (m : M A) (k : A -> M B) :
  fail_fast provider m -> (forall a, fail_fast provider (k a)) ->
  fail_fast provider (bind m k).
Proof.
  intros Hm Hk self h. specialize (Hm self h).
  unfold bind, events_of, outcome_of in *.
  destruct (m self h) as [[[a | e] self1] ev1]; cbn [fst snd] in *.
  - destruct Hm as [Hstops Hclean]. specialize (Hclean (ex_intro _ a eq_refl)).
    specialize (Hk a self1 (h ++ ev1)).
    destruct (k a self1 (h ++ ev1)) as [[r self2] ev2]; cbn [fst snd] in *.
    destruct Hk as [Hstops2 Hclean2]. split.
    + apply stops_at_failure_app; [exact Hstops | congruence | now intros _].
    + intros Hok. rewrite some_call_failed_app, Hclean. now apply Hclean2.
  - destruct Hm as [Hstops _]. split; [exact Hstops |].
    intros [a Ha]. discriminate.
Qed.

Lemma fail_fast_try {A} (body : M A) (catches : exn -> bool) (handler : exn -> M A) :
  fail_fast provider body ->
  (forall e, silent (handler e)) -> (forall e, always_raises (handler e)) ->
  fail_fast provider (try_except body catches handler).
Proof.
  intros Hbody Hsilent Hraises self h. specialize (Hbody self h).
  unfold try_except, events_of, outcome_of in *.
  destruct (body self h) as [[[a | e] self1] ev1]; cbn [fst snd] in *;
    [exact Hbody |].
  destruct (catches e); [| exact Hbody].
  specialize (Hsilent e self1 (h ++ ev1)). specialize (Hraises e self1 (h ++ ev1)).
  unfold events_of, outcome_of in *.
  destruct (handler e self1 (h ++ ev1)) as [[r self2] ev2]; cbn [fst snd] in *.
  destruct Hbody as [Hstops _]. split.
  - apply stops_at_failure_app; [exact Hstops | now intros _ |].
    intros _. now apply quiet_stops.
  - intros [a Ha]. destruct Hraises as [e2 He2]. congruence.
Qed.

Lemma fail_fast_if {A} (b : bool) (m1 m2 : M A) :
  fail_fast provider m1 -> fail_fast provider m2 ->
  fail_fast provider (if b then m1 else m2).
Proof. now destruct b. Qed.

Hint Resolve silent_ret silent_raise silent_get silent_sleep silent_cprint
  silent_set_daytona silent_set_sandbox silent_set_current_url silent_lift
  silent_item0 silent_sandbox silent_daytona silent_print_raise
  always_raises_print_raise : frame.

Ltac fail_fast :=
  repeat first
    [ match goal with
      | |- fail_fast _ (sdk _ ?c) => exact (fail_fast_sdk c)
      end
    | solve [auto with frame]
    | apply fail_fast_silent; solve [auto with frame]
    | apply fail_fast_bind; [| intro]
    | apply fail_fast_try; [| intro | intro]
    | apply fail_fast_if ].

Lemma fail_fast_current_state : fail_fast provider (current_state provider).
Proof. unfold current_state. fail_fast. Qed.

Hint Resolve fail_fast_current_state : frame.

Lemma fail_fast_scroll_at (x y : Z) (direction : string) (magnitude : Z) :
  fail_fast provider (scroll_at provider x y direction magnitude).
Proof. unfold scroll_at. fail_fast. Qed.

Hint Resolve fail_fast_scroll_at : frame.

Lemma fail_fast_navigate (u : string) : fail_fast provider (navigate provider u).
Proof. unfold navigate. fail_fast. Qed.

Hint Resolve fail_fast_navigate : frame.

Lemma fail_fast_env_method (a : action) (m : M EnvState) :
  env_method provider a = Some m -> fail_fast provider m.
Proof.
  destruct a; simpl; intros Hm; inversion Hm; subst; clear Hm;
    auto with frame.
  - unfold open_web_browser. fail_fast.
  - unfold click_at. fail_fast.
  - unfold hover_at. fail_fast.
  - unfold type_text_at. fail_fast.
  - unfold scroll_document. fail_fast.
  - unfold wait_5_seconds. fail_fast.
  - unfold go_back. fail_fast.
  - unfold go_forward. fail_fast.
  - unfold search. fail_fast.
  - unfold key_combination. fail_fast.
  - unfold drag_and_drop. fail_fast.
Qed.

Lemma fail_fast_enter (environ : gmap string string) :
  fail_fast provider (__enter__ environ provider).
Proof. unfold __enter__. fail_fast. Qed.

Lemma fail_fast_discard {A} (m : M A) :
  fail_fast provider m -> fail_fast provider (discard m).
Proof. intros Hm. unfold discard. fail_fast. Qed.

Lemma exit_stops (self : DaytonaComputer) (h : list event) :
  stops_at_failure provider h (events_of (__exit__ provider self h)).
Proof.
  destruct (_sandbox self) as [sb |] eqn:Hsb.
  - rewrite (exit_with_handle provider self h sb Hsb).
    destruct (provider h (sandbox_delete sb)) as [e | []] eqn:Hdelete;
      unfold events_of; cbn [snd stops_at_failure call_failed]; rewrite Hdelete.
    + split; [intros _; exact (proj1 (cleanup_line_quiet e)) |].
      apply quiet_stops. exact (proj1 (cleanup_line_quiet e)).
    + repeat split.
  - now rewrite (exit_without_handle provider self h Hsb).
Qed.

End FailFast.

(** X14: Within one method call, no SDK call is made after an SDK call that
    raised: nothing is retried and nothing carries on.  Moreover no method
    except [__exit__] returns normally once one of its SDK calls has raised
    (only the failure of the delete is dropped). *)
Theorem no_call_after_failure (environ : gmap string string) (provider : provider_t)
    (a : action) (self : DaytonaComputer) (h : list event) :
  let run := call_method environ provider a self h in
  stops_at_failure provider h (events_of run)
  /\ (a <> Exit ->
      some_call_failed provider h (events_of run) = true ->
      exists e, outcome_of run = Raise e).
Proof.
  cbv zeta.
  assert (Hmost : a <> Exit -> fail_fast provider (call_method environ provider a)).
  { intros Hexit. destruct (env_method provider a) as [m |] eqn:Hm.
    - pose proof (fail_fast_env_method provider a m Hm) as Hfast.
      destruct a; simpl in Hm; inversion Hm; subst; simpl;
        now apply fail_fast_discard.
    - destruct a; try discriminate; simpl.
      + apply fail_fast_enter.
      + contradiction.
      + apply fail_fast_discard, fail_fast_silent. intros s hh. reflexivity. }
  split.
  - destruct a; try (apply Hmost; discriminate). apply exit_stops.
  - intros Hexit Hfailed. destruct (Hmost Hexit self h) as [_ Hclean].
    destruct (outcome_of (call_method environ provider a self h)) as [r | e] eqn:Hout.
    + rewrite Hclean in Hfailed; [discriminate | eauto].
    + eauto.
Qed.

Lemma no_call_after_failure_witness :
  let provider := scripted click_fails "aGk=" in
  let a := TypeTextAt 5 6 "hello" true true in
  a <> Exit
  /\ some_call_failed provider [] (events_of (call_method test_environ provider a active []))
     = true
  /\ events_of (call_method test_environ provider a active [])
     = [Call (mouse_click sandbox1 5 6 (Some "left"))]
  /\ exists e, outcome_of (call_method test_environ provider a active []) = Raise e.
Proof.
  cbv zeta.
  assert (Hexit : TypeTextAt 5 6 "hello" true true <> Exit) by discriminate.
  split; [exact Hexit |]. split; [reflexivity |]. split; [reflexivity |].
  exact (proj2 (no_call_after_failure test_environ (scripted click_fails "aGk=")
                  (TypeTextAt 5 6 "hello" true true) active []) Hexit eq_refl).
Defined.

(** ** The adapter talks to its own sandbox only *)

Lemma quiet_addressed (sb : Sandbox) (evs : list event) :
  List.filter is_call evs = [] -> Forall (addressed_to sb) evs.
Proof.
  induction evs as [| ev rest IH]; intros Hquiet; [constructor |].
  destruct ev as [c | d | text color bold]; simpl in Hquiet; try discriminate;
    constructor; try exact I; now apply IH.
Qed.

Section Owned.

Variable provider : provider_t.
Variable sb : Sandbox.

Lemma owned_quiet {A} (m : M A) : keeps_self m -> silent m -> owned sb m.
Proof.
  intros Hself Hsilent self h Hsb. rewrite Hself. split; [exact Hsb |].
  apply quiet_addressed, Hsilent.
Qed.

Lemma owned_set_current_url (u : string) : owned sb (set_current_url u).
Proof. intros self h Hsb. split; [exact Hsb | constructor]. Qed.

Lemma owned_sdk (c : call) : call_target c = Some sb -> owned sb (sdk provider c).
Proof.
  intros Htarget self h Hsb. unfold sdk, self_of, events_of.
  destruct (provider h c); simpl; (split; [exact Hsb |]); repeat constructor;
    exact Htarget.
Qed.

Lemma owned_bind {A B} (m : M A) (k : A -> M B) :
  owned sb m -> (forall a, owned sb (k a)) -> owned sb (bind m k).
Proof.
  intros Hm Hk self h Hsb. specialize (Hm self h Hsb).
  unfold bind, self_of, events_of in *.
  destruct (m self h) as [[[a | e] self1] ev1]; cbn [fst snd] in *; [| exact Hm].
  destruct Hm as [Hsb1 Hev1]. specialize (Hk a self1 (h ++ ev1) Hsb1).
  unfold self_of, events_of in Hk.
  destruct (k a self1 (h ++ ev1)) as [[r self2] ev2]; cbn [fst snd] in *.
  destruct Hk as [Hsb2 Hev2]. split; [exact Hsb2 |]. now apply Forall_app.
Qed.

(** [self._sandbox.<...>] hands the stored handle to what follows. *)
Lemma owned_bind_sandbox {B} (attr : string) (k : Sandbox -> M B) :
  owned sb (k sb) -> owned sb (bind (self_sandbox attr) k).
Proof.
  intros Hk self h Hsb. unfold self_sandbox. open_monad. rewrite Hsb. tidy.
  specialize (Hk self h Hsb). unfold self_of, events_of in Hk.
  destruct (k sb self h) as [[r self2] ev2]. exact Hk.
Qed.

Lemma owned_try {A} (body : M A) (catches : exn -> bool) (handler : exn -> M A) :
  owned sb body -> (forall e, owned sb (handler e)) ->
  owned sb (try_except body catches handler).
Proof.
  intros Hbody Hhandler self h Hsb. specialize (Hbody self h Hsb).
  unfold try_except, self_of, events_of in *.
  destruct (body self h) as [[[a | e] self1] ev1]; cbn [fst snd] in *;
    [exact Hbody |].
  destruct (catches e); [| exact Hbody].
  destruct Hbody as [Hsb1 Hev1]. specialize (Hhandler e self1 (h ++ ev1) Hsb1).
  unfold self_of, events_of in Hhandler.
  destruct (handler e self1 (h ++ ev1)) as [[r self2] ev2]; cbn [fst snd] in *.
  destruct Hhandler as [Hsb2 Hev2]. split; [exact Hsb2 |]. now apply Forall_app.
Qed.

Lemma owned_if {A} (b : bool) (m1 m2 : M A) :
  owned sb m1 -> owned sb m2 -> owned sb (if b then m1 else m2).
Proof. now destruct b. Qed.

Hint Resolve silent_ret silent_raise silent_get silent_sleep silent_cprint
  silent_lift silent_item0 silent_sandbox
  keeps_self_ret keeps_self_raise keeps_self_get keeps_self_sleep
  keeps_self_cprint keeps_self_lift keeps_self_item0 keeps_self_sandbox
  owned_set_current_url : frame.

Ltac owned :=
  repeat first
    [ solve [auto with frame]
    | apply owned_quiet; solve [auto with frame]
    | match goal with
      | |- owned _ (sdk _ ?c) => exact (owned_sdk c eq_refl)
      end
    | apply owned_bind_sandbox
    | apply owned_bind; [| intro]
    | apply owned_try; [| intro]
    | apply owned_if ].

Lemma owned_current_state : owned sb (current_state provider).
Proof. unfold current_state. owned. Qed.

Hint Resolve owned_current_state : frame.

Lemma owned_scroll_at (x y : Z) (direction : string) (magnitude : Z) :
  owned sb (scroll_at provider x y direction magnitude).
Proof. unfold scroll_at. owned. Qed.

Hint Resolve owned_scroll_at : frame.

Lemma owned_navigate (u : string) : owned sb (navigate provider u).
Proof. unfold navigate. owned. Qed.

Hint Resolve owned_navigate : frame.

Lemma owned_env_method (a : action) (m : M EnvState) :
  env_method provider a = Some m -> owned sb m.
Proof.
  destruct a; simpl; intros Hm; inversion Hm; subst; clear Hm;
    auto with frame.
  - unfold open_web_browser. owned.
  - unfold click_at. owned.
  - unfold hover_at. owned.
  - unfold type_text_at. owned.
  - unfold scroll_document. owned.
  - unfold wait_5_seconds. owned.
  - unfold go_back. owned.
  - unfold go_forward. owned.
  - unfold search. owned.
  - unfold key_combination. owned.
  - unfold drag_and_drop. owned.
Qed.

Lemma owned_discard {A} (m : M A) : owned sb m -> owned sb (discard m).
Proof. intros Hm. unfold discard. owned. Qed.

Lemma owned_exit : owned sb (__exit__ provider).
Proof.
  intros self h Hsb. rewrite (exit_with_handle provider self h sb Hsb).
  destruct (provider h (sandbox_delete sb)) as [e | []]; (split; [exact Hsb |]);
    unfold events_of; cbn [snd]; constructor; try reflexivity; [| constructor].
  apply quiet_addressed. exact (proj1 (cleanup_line_quiet e)).
Qed.

End Owned.

Lemma call_method_owned (environ : gmap string string) (provider : provider_t)
    (sb : Sandbox) (a : action) :
  a <> Enter -> owned sb (call_method environ provider a).
Proof.
  intros Henter. destruct (env_method provider a) as [m |] eqn:Hm.
  - pose proof (owned_env_method provider sb a m Hm) as Hm'.
    destruct a; simpl in Hm; inversion Hm; subst; simpl;
      now apply owned_discard.
  - destruct a; try discriminate; simpl.
    + contradiction.
    + apply owned_exit.
    + apply owned_discard, owned_quiet; intros s hh; reflexivity.
Qed.

(** X15: While a handle is stored, every SDK call of every method other than
    [__enter__] is made on the sandbox of that handle, and the handle is
    still the stored one afterwards, whether the method returns or raises:
    nothing but [__enter__] ever changes which sandbox the adapter drives. *)
Theorem calls_go_to_own_sandbox (environ : gmap string string) (provider : provider_t)
    (a : action) (self : DaytonaComputer) (h : list event) (sb : Sandbox) :
  _sandbox self = Some sb ->
  a <> Enter ->
  _sandbox (self_of (call_method environ provider a self h)) = Some sb
  /\ Forall (addressed_to sb) (events_of (call_method environ provider a self h)).
Proof.
  intros Hsb Henter.
  exact (call_method_owned environ provider sb a Henter self h Hsb).
Qed.

Lemma calls_go_to_own_sandbox_witness :
  let a := ScrollDocument "left" in
  _sandbox active = Some sandbox1
  /\ a <> Enter
  /\ Forall (addressed_to sandbox1)
       (events_of (call_method test_environ all_succeed a active [])).
Proof.
  cbv zeta.
  assert (Henter : ScrollDocument "left" <> Enter) by discriminate.
  split; [reflexivity |]. split; [exact Henter |].
  exact (proj2 (calls_go_to_own_sandbox test_environ all_succeed (ScrollDocument "left")
                  active [] sandbox1 eq_refl Henter)).
Defined.

(** ** The state a method returns *)

Section Fresh.

Variable provider : provider_t.

Lemma fresh_current_state : fresh_state provider (current_state provider).
Proof.
  intros self h st self1 ev Hrun.
  destruct (_sandbox self) as [sb |] eqn:Hsb.
  - rewrite (current_state_active provider self h sb Hsb) in Hrun. cbv zeta in Hrun.
    destruct (provider _ _) as [e | shot] eqn:Hshot; [discriminate |].
    destruct (b64decode shot) as [e | screenshot_bytes] eqn:Hdecode; [discriminate |].
    inversion Hrun; subst. split; [reflexivity |].
    exists [], sb, shot. repeat split; assumption.
  - rewrite (current_state_inactive provider self h Hsb) in Hrun. discriminate.
Qed.

Lemma fresh_bind {A} (m : M A) (k : A -> M EnvState) :
  (forall a, fresh_state provider (k a)) -> fresh_state provider (bind m k).
Proof.
  intros Hk self h st self1 ev Hrun. unfold bind in Hrun.
  destruct (m self h) as [[[a | e] self2] ev1]; [| discriminate].
  destruct (k a self2 (h ++ ev1)) as [[r self3] ev2] eqn:Hrest.
  inversion Hrun; subst.
  destruct (Hk a _ _ _ _ _ Hrest) as [Hurl (pre & sb & shot & Hsb & Hev & Hshot & Hdecode)].
  split; [exact Hurl |].
  exists (ev1 ++ pre), sb, shot. subst ev2. rewrite <- !app_assoc in *.
  repeat split; assumption.
Qed.

Lemma fresh_raise (e : exn) : fresh_state provider (raise e).
Proof. intros self h st self1 ev Hrun. discriminate. Qed.

Lemma fresh_if (b : bool) (m1 m2 : M EnvState) :
  fresh_state provider m1 -> fresh_state provider m2 ->
  fresh_state provider (if b then m1 else m2).
Proof. now destruct b. Qed.

Hint Resolve fresh_current_state fresh_raise : frame.

Ltac fresh_state :=
  repeat first
    [ solve [auto with frame]
    | apply fresh_bind; intro
    | apply fresh_if ].

Lemma fresh_scroll_at (x y : Z) (direction : string) (magnitude : Z) :
  fresh_state provider (scroll_at provider x y direction magnitude).
Proof. unfold scroll_at. fresh_state. Qed.

Lemma fresh_navigate (u : string) : fresh_state provider (navigate provider u).
Proof. unfold navigate. fresh_state. Qed.

Hint Resolve fresh_scroll_at fresh_navigate : frame.

Lemma fresh_env_method (a : action) (m : M EnvState) :
  env_method provider a = Some m -> fresh_state provider m.
Proof.
  destruct a; simpl; intros Hm; inversion Hm; subst; clear Hm;
    auto with frame.
  - unfold open_web_browser. fresh_state.
  - unfold click_at. fresh_state.
  - unfold hover_at. fresh_state.
  - unfold type_text_at. fresh_state.
  - unfold scroll_document. fresh_state.
  - unfold wait_5_seconds. fresh_state.
  - unfold go_back. fresh_state.
  - unfold go_forward. fresh_state.
  - unfold search. fresh_state.
  - unfold key_combination. fresh_state.
  - unfold drag_and_drop. fresh_state.
Qed.

End Fresh.

(** X16: Whenever an action method returns a state, capturing it was the last
    thing the method did: its events end with the screenshot delay and the
    capture call on the stored sandbox, nothing is sent after that, the
    screenshot is the base64 decoding of what that call answered, and the
    url is the tracked url of the adapter as the method leaves it. *)
Theorem returned_state_is_fresh (provider : provider_t) (a : action)
    (m : M EnvState) (self self1 : DaytonaComputer) (h ev : list event)
    (st : EnvState) :
  env_method provider a = Some m ->
  m self h = (Ok st, self1, ev) ->
  url st = _current_url self1
  /\ exists pre sb shot,
       _sandbox self1 = Some sb
       /\ ev = pre ++ [Sleep SLEEP_SCREENSHOT;
                       Call (screenshot_take_compressed sb "png" true)]
       /\ provider (h ++ pre ++ [Sleep SLEEP_SCREENSHOT])
            (screenshot_take_compressed sb "png" true) = inr shot
       /\ b64decode shot = inr (screenshot st).
Proof.
  intros Hm Hrun. exact (fresh_env_method provider a m Hm self h st self1 ev Hrun).
Qed.

Lemma returned_state_is_fresh_witness :
  let m := key_combination all_succeed ["control"; "a"] in
  env_method all_succeed (KeyCombination ["control"; "a"]) = Some m
  /\ exists st self1 ev,
       m active [] = (Ok st, self1, ev)
       /\ url st = _current_url self1
       /\ b64decode "aGk=" = inr (screenshot st).
Proof.
  cbv zeta. split; [reflexivity |].
  destruct (key_combination all_succeed ["control"; "a"] active [])
    as [[[st | e] self1] ev] eqn:Hrun.
  - exists st, self1, ev. split; [reflexivity |].
    destruct (returned_state_is_fresh all_succeed (KeyCombination ["control"; "a"])
                _ active self1 [] ev st eq_refl Hrun)
      as [Hurl (pre & sb & shot & _ & _ & Hshot & Hdecode)].
    split; [exact Hurl |].
    unfold all_succeed, scripted in Hshot. simpl in Hshot. inversion Hshot; subst shot.
    exact Hdecode.
  - vm_compute in Hrun. discriminate.
Defined.

(** ** Waiting, and the life of a session *)

(** X17: [wait_5_seconds] sends no input to the sandbox: it sleeps five seconds,
    then the screenshot delay, and its only SDK call is the capture; the
    adapter is left as it was. *)
Theorem wait_only_captures (provider : provider_t) (self : DaytonaComputer)
    (h : list event) (sb : Sandbox) :
  _sandbox self = Some sb ->
  self_of (wait_5_seconds provider self h) = self
  /\ exists tail,
       events_of (wait_5_seconds provider self h)
       = Sleep (Qmake 5 1) :: Sleep SLEEP_SCREENSHOT
           :: Call (screenshot_take_compressed sb "png" true) :: tail
       /\ List.filter is_call tail = [].
Proof.
  intros Hsb. split; [apply keeps_self_wait_5_seconds |].
  unfold wait_5_seconds, bind, sleep, emit, events_of.
  rewrite (current_state_active provider self _ sb Hsb). cbv zeta.
  destruct (provider _ _) as [e | shot].
  - exists (screenshot_line e). split; [reflexivity |].
    exact (proj2 (screenshot_line_capture e)).
  - destruct (b64decode shot); eexists; split; reflexivity.
Qed.

Lemma wait_only_captures_witness :
  _sandbox active = Some sandbox1
  /\ List.filter is_call (events_of (wait_5_seconds (scripted capture_fails "aGk=") active []))
     = [Call (screenshot_take_compressed sandbox1 "png" true)].
Proof.
  split; [reflexivity |].
  destruct (wait_only_captures (scripted capture_fails "aGk=") active [] sandbox1 eq_refl)
    as [_ (tail & Hev & Hquiet)].
  rewrite Hev. cbn [List.filter is_call]. now rewrite Hquiet.
Defined.

Lemma run_calls_owned (environ : gmap string string) (provider : provider_t)
    (sb : Sandbox) (acts : list action) :
  Forall (fun a => a <> Enter) acts ->
  forall self h,
    _sandbox self = Some sb ->
    _sandbox (fst (run_calls environ provider acts self h)) = Some sb
    /\ Forall (addressed_to sb) (snd (run_calls environ provider acts self h)).
Proof.
  induction acts as [| a rest IH]; intros Hacts self h Hsb.
  - split; [exact Hsb | constructor].
  - inversion Hacts as [| a' rest' Ha Hrest]; subst.
    destruct (call_method_owned environ provider sb a Ha self h Hsb)
      as [Hsb1 Hev1].
    simpl. unfold self_of, events_of in Hsb1, Hev1.
    destruct (call_method environ provider a self h) as [[r self1] ev1].
    cbn [fst snd] in Hsb1, Hev1.
    destruct (IH Hrest self1 (h ++ ev1) Hsb1) as [Hsb2 Hev2].
    destruct (run_calls environ provider rest self1 (h ++ ev1)) as [self2 ev2].
    cbn [fst snd] in *. split; [exact Hsb2 |]. now apply Forall_app.
Qed.

(** X18: From a start that returned until the end of the session: whatever
    methods other than [__enter__] are called in between, and whatever they
    return or raise, the stored handle stays the sandbox that the create
    request returned, every call in between is made on that sandbox, and
    [__exit__] then sends the delete for that sandbox and nothing else. *)
Theorem session_lifetime (environ : gmap string string) (provider : provider_t)
    (self self1 : DaytonaComputer) (h ev : list event) (acts : list action) :
  __enter__ environ provider self h = (Ok tt, self1, ev) ->
  Forall (fun a => a <> Enter) acts ->
  exists sb,
    In (Call (computer_use_start sb)) ev
    /\ _sandbox self1 = Some sb
    /\ let later := run_calls environ provider acts self1 (h ++ ev) in
       _sandbox (fst later) = Some sb
       /\ Forall (addressed_to sb) (snd later)
       /\ forall h',
            List.filter is_call (events_of (__exit__ provider (fst later) h'))
            = [Call (sandbox_delete sb)].
Proof.
  intros Henter Hacts.
  destruct (enter_ok_handle environ provider self self1 h ev Henter) as (sb & Hsb & Hin).
  exists sb. split; [exact Hin |]. split; [exact Hsb |]. cbv zeta.
  destruct (run_calls_owned environ provider sb acts Hacts self1 (h ++ ev) Hsb)
    as [Hlater Hev].
  split; [exact Hlater |]. split; [exact Hev |].
  intros h'. exact (proj1 (exit_calls provider _ h' sb Hlater)).
Qed.

Lemma session_lifetime_witness :
  let acts := [OpenWebBrowser; Navigate "example.com"; ScrollDocument "sideways";
               Exit; ClickAt 3 4] in
  __enter__ test_environ all_succeed fresh []
  = (Ok tt, active, events_of (__enter__ test_environ all_succeed fresh []))
  /\ Forall (fun a => a <> Enter) acts
  /\ exists sb,
       let later := run_calls test_environ all_succeed acts active
                      ([] ++ events_of (__enter__ test_environ all_succeed fresh [])) in
       _sandbox (fst later) = Some sb
       /\ List.filter is_call (events_of (__exit__ all_succeed (fst later) (snd later)))
          = [Call (sandbox_delete sb)].
Proof.
  cbv zeta.
  assert (Hacts : Forall (fun a => a <> Enter)
                    [OpenWebBrowser; Navigate "example.com"; ScrollDocument "sideways";
                     Exit; ClickAt 3 4])
    by (repeat constructor; discriminate).
  split; [reflexivity |]. split; [exact Hacts |].
  destruct (session_lifetime test_environ all_succeed fresh active []
              (events_of (__enter__ test_environ all_succeed fresh []))
              _ eq_refl Hacts) as (sb & _ & _ & Hlater & _ & Hexit).
  exists sb. split; [exact Hlater | apply Hexit].
Defined.

(** ** Attributes that never change, and the shape of the tracked url *)

Lemma discard_self {A} (m : M A) (self : DaytonaComputer) (h : list event) :
  self_of (discard m self h) = self_of (m self h).
Proof.
  unfold discard, bind, ret, self_of.
  now destruct (m self h) as [[[a | e] self1] ev].
Qed.

Lemma search_self (provider : provider_t) (self : DaytonaComputer) (h : list event) :
  self_of (search provider self h)
  = assign_current_url self (normalized_url (_search_engine_url self)).
Proof.
  pose proof (navigate_self provider (_search_engine_url self) self (h ++ [])) as Hnav.
  unfold search, bind, get_self, self_of in *.
  now destruct (navigate provider (_search_engine_url self) self (h ++ []))
    as [[r self1] ev].
Qed.

Lemma open_web_browser_self (provider : provider_t) (self : DaytonaComputer)
    (h : list event) :
  self_of (open_web_browser provider self h) = self
  \/ self_of (open_web_browser provider self h)
     = assign_current_url self (_initial_url self).
Proof.
  unfold open_web_browser. open_monad.
  destruct (_sandbox self) as [sb |]; [| now left].
  tidy. destruct (provider h _) as [e | []]; [now left |].
  tidy. right.
  match goal with
  | |- context [current_state provider ?s ?hh] =>
      pose proof (current_state_self provider s hh) as Hself;
      unfold self_of in Hself;
      destruct (current_state provider s hh) as [[r self2] ev2]
  end.
  exact Hself.
Qed.

(** What a method call can do to the object: leave it, assign the handle
    and the client, or assign the tracked url. *)
Lemma call_method_self (environ : gmap string string) (provider : provider_t)
    (a : action) (self : DaytonaComputer) (h : list event) :
  let self1 := self_of (call_method environ provider a self h) in
  config self1 = config self
  /\ (_current_url self1 = _current_url self
      \/ _current_url self1 = _initial_url self
      \/ exists u, _current_url self1 = normalized_url u).
Proof.
  cbv zeta. destruct a; simpl;
    try (rewrite discard_self;
         first [ rewrite keeps_self_screen_size | rewrite keeps_self_click_at
               | rewrite keeps_self_hover_at | rewrite keeps_self_type_text_at
               | rewrite keeps_self_scroll_document | rewrite keeps_self_scroll_at
               | rewrite keeps_self_wait_5_seconds | rewrite keeps_self_go_back
               | rewrite keeps_self_go_forward | rewrite keeps_self_key_combination
               | rewrite keeps_self_drag_and_drop | rewrite keeps_self_current_state ];
         now auto).
  - (* __enter__ *)
    rewrite enter_cases. cbv zeta.
    destruct (provider h _) as [e | d]; [now auto |].
    destruct (provider (h ++ _) (Daytona_create _ _)) as [e | sb]; [now auto |].
    destruct (provider (h ++ _) (computer_use_start _)); now auto.
  - (* __exit__ *)
    rewrite keeps_self_exit. now auto.
  - (* open_web_browser *)
    rewrite discard_self.
    destruct (open_web_browser_self provider self h) as [-> | ->]; now auto.
  - (* search *)
    rewrite discard_self, search_self. split; [reflexivity |]. right. right. now eexists.
  - (* navigate *)
    rewrite discard_self, navigate_self. split; [reflexivity |]. right. right. now eexists.
Qed.

Lemma run_calls_config (environ : gmap string string) (provider : provider_t)
    (acts : list action) :
  forall self h,
    config (fst (run_calls environ provider acts self h)) = config self
    /\ (is_http (_initial_url self) = true ->
        is_http (_current_url self) = true ->
        is_http (_current_url (fst (run_calls environ provider acts self h))) = true).
Proof.
  induction acts as [| a rest IH]; intros self h; [now split |].
  pose proof (call_method_self environ provider a self h) as Hstep.
  cbv zeta in Hstep. unfold self_of in Hstep. simpl.
  destruct (call_method environ provider a self h) as [[r self1] ev1].
  cbn [fst snd] in Hstep. destruct Hstep as [Hconfig Hurl].
  destruct (IH self1 (h ++ ev1)) as [Hconfig2 Hhttp2].
  destruct (run_calls environ provider rest self1 (h ++ ev1)) as [self2 ev2].
  cbn [fst snd] in *. split; [congruence |].
  intros Hinitial Hcurrent. apply Hhttp2.
  - assert (Hsame : _initial_url self1 = _initial_url self)
      by (unfold config in Hconfig; congruence).
    now rewrite Hsame.
  - destruct Hurl as [-> | [-> | [u ->]]]; [assumption | assumption |].
    apply normalized_url_http.
Qed.

(** X19: The configuration given to the constructor is never modified: after any
    sequence of method calls, whatever they return or raise, the screen size,
    the initial and the search engine url, the network flags and the
    auto-stop interval are as constructed, and [screen_size] answers the
    constructor's screen size without any SDK call or other event. *)
Theorem config_never_changes (environ : gmap string string) (provider : provider_t)
    (size : Z * Z) (initial_url search_engine_url : string)
    (network_block_all : bool) (network_allow_list : option string)
    (auto_stop_interval : Z) (acts : list action) (h : list event) :
  let self0 := __init__ size initial_url search_engine_url network_block_all
                 network_allow_list auto_stop_interval in
  let later := fst (run_calls environ provider acts self0 h) in
  config later
  = (size, initial_url, search_engine_url, network_block_all, network_allow_list,
     auto_stop_interval)
  /\ forall h', screen_size later h' = (Ok size, later, []).
Proof.
  cbv zeta.
  destruct (run_calls_config environ provider acts
              (__init__ size initial_url search_engine_url network_block_all
                 network_allow_list auto_stop_interval) h) as [Hconfig _].
  split; [exact Hconfig |].
  intros h'. unfold screen_size. open_monad.
  apply (f_equal (fun c => fst (fst (fst (fst (fst c)))))) in Hconfig.
  cbn [config fst] in Hconfig. now rewrite Hconfig.
Qed.

(** X20: If the initial url given to the constructor begins with http:// or
    https://, then so does the tracked url after any sequence of method
    calls, and so does the url of every state the adapter returns: the only
    values ever assigned to it are the initial url and normalized urls. *)
Theorem tracked_url_stays_http (environ : gmap string string) (provider : provider_t)
    (size : Z * Z) (initial_url search_engine_url : string)
    (network_block_all : bool) (network_allow_list : option string)
    (auto_stop_interval : Z) (acts : list action) (h : list event) :
  is_http initial_url = true ->
  let self0 := __init__ size initial_url search_engine_url network_block_all
                 network_allow_list auto_stop_interval in
  let later := fst (run_calls environ provider acts self0 h) in
  is_http (_current_url later) = true
  /\ forall hh st self1 ev,
       current_state provider later hh = (Ok st, self1, ev) ->
       is_http (url st) = true.
Proof.
  intros Hinitial. cbv zeta.
  destruct (run_calls_config environ provider acts
              (__init__ size initial_url search_engine_url network_block_all
                 network_allow_list auto_stop_interval) h) as [_ Hhttp].
  specialize (Hhttp Hinitial Hinitial).
  split; [exact Hhttp |].
  intros hh st self1 ev Hrun.
  now rewrite (current_state_url provider _ self1 hh ev st Hrun).
Qed.

Lemma tracked_url_stays_http_witness :
  let acts := [Enter; Navigate "ftp://example.com"; GoBack; Search; OpenWebBrowser;
               Navigate "example.org/a"] in
  is_http default_initial_url = true
  /\ _current_url (fst (run_calls test_environ all_succeed acts fresh []))
     = "https://example.org/a"
  /\ is_http (_current_url (fst (run_calls test_environ all_succeed acts fresh []))) = true.
Proof.
  cbv zeta. split; [reflexivity |]. split; [reflexivity |].
  exact (proj1 (tracked_url_stays_http test_environ all_succeed (1440, 900)
                  default_initial_url default_search_engine_url false
                  default_network_allow_list 30
                  [Enter; Navigate "ftp://example.com"; GoBack; Search; OpenWebBrowser;
                   Navigate "example.org/a"] [] eq_refl)).
Defined.
